(** * Pet routes (backend/pets/routes.py): a shallow embedding

    The handlers of [backend/pets/routes.py] are embedded as functions in a
    reader/state/exception monad.  Documents are Python dicts with string keys
    ([gmap string value]); the collection [DB.pet] is reached through an
    interface ([DocumentStore]) of which [MongoStore] is the reference
    implementation, following the documented behaviour of the MongoDB driver. *)

From Stdlib Require Import ZArith Strings.Ascii Strings.String Strings.Byte.
From stdpp Require Import base numbers option list gmap strings pretty sorting.

Open Scope Z_scope.
Set Warnings "-clear-no-such-hyp".

(** ** bson.objectid.ObjectId: twelve bytes, printed as 24 lower-case hex digits *)

Module Oid.

Definition t : Type :=
  (byte * byte * byte * byte * byte * byte * byte * byte * byte * byte * byte * byte)%type.

(** The digit of a nibble: ["0"]..["9"] are 48..57, ["a"]..["f"] are 97..102. *)
Definition hex_digit (n : N) : ascii :=
  ascii_of_N (if n <? 10 then 48 + n else 87 + n)%N.

(** The nibble of a digit, in either case (["A"]..["F"] are 65..70). *)
Definition hex_value (c : ascii) : option N :=
  let n := N_of_ascii c in
  (if (48 <=? n) && (n <=? 57) then Some (n - 48)
   else if (97 <=? n) && (n <=? 102) then Some (n - 87)
   else if (65 <=? n) && (n <=? 70) then Some (n - 55)
   else None)%N.

Definition byte_hex (b : byte) (rest : string) : string :=
  String (hex_digit (Byte.to_N b / 16)) (String (hex_digit (Byte.to_N b mod 16)) rest).

Definition hex_byte (c1 c2 : ascii) : option byte :=
  h ← hex_value c1; l ← hex_value c2; Byte.of_N (16 * h + l)%N.

(** [str(oid)] *)
Definition to_str (o : t) : string :=
  let '(b1, b2, b3, b4, b5, b6, b7, b8, b9, b10, b11, b12) := o in
  byte_hex b1 (byte_hex b2 (byte_hex b3 (byte_hex b4 (byte_hex b5 (byte_hex b6
  (byte_hex b7 (byte_hex b8 (byte_hex b9 (byte_hex b10 (byte_hex b11
  (byte_hex b12 ""))))))))))).

(** [ObjectId(s)] for a string [s]: 24 hex digits, or [InvalidId]. *)
Definition of_str (s : string) : option t :=
  match list_ascii_of_string s with
  | [c1; c2; c3; c4; c5; c6; c7; c8; c9; c10; c11; c12; c13; c14; c15; c16;
     c17; c18; c19; c20; c21; c22; c23; c24] =>
      b1 ← hex_byte c1 c2; b2 ← hex_byte c3 c4; b3 ← hex_byte c5 c6;
      b4 ← hex_byte c7 c8; b5 ← hex_byte c9 c10; b6 ← hex_byte c11 c12;
      b7 ← hex_byte c13 c14; b8 ← hex_byte c15 c16; b9 ← hex_byte c17 c18;
      b10 ← hex_byte c19 c20; b11 ← hex_byte c21 c22; b12 ← hex_byte c23 c24;
      Some (b1, b2, b3, b4, b5, b6, b7, b8, b9, b10, b11, b12)
  | _ => None
  end.

Definition to_list (o : t) : list N :=
  let '(b1, b2, b3, b4, b5, b6, b7, b8, b9, b10, b11, b12) := o in
  Byte.to_N <$> [b1; b2; b3; b4; b5; b6; b7; b8; b9; b10; b11; b12].

(** The big-endian number the twelve bytes spell; ObjectIds are ordered by it. *)
Definition to_N (o : t) : N := foldl (λ acc b, acc * 256 + b)%N 0%N (to_list o).

End Oid.

Global Instance byte_eq_dec : EqDecision byte := Byte.byte_eq_dec.

Abbreviation ObjectId := Oid.t.

(** ** Python / BSON values and documents *)

Inductive value : Type :=
  | VNone
  | VBool (b : bool)
  | VInt (n : Z)
  | VStr (s : string)
  | VOid (o : ObjectId).

Global Instance value_eq_dec : EqDecision value.
Proof. solve_decision. Defined.

(** A Python dict with string keys (a pet, a query filter, a [$set] argument). *)
Abbreviation doc := (gmap string value).

(** [bool(v)] *)
Definition truthy (v : value) : bool :=
  match v with
  | VNone => false
  | VBool b => b
  | VInt n => negb (n =? 0)
  | VStr s => negb (String.eqb s "")
  | VOid _ => true
  end.

(** [str(v)] *)
Definition py_str (v : value) : string :=
  match v with
  | VNone => "None"
  | VBool true => "True"
  | VBool false => "False"
  | VInt n => pretty n
  | VStr s => s
  | VOid o => Oid.to_str o
  end.

(** ** Exceptions and results *)

Inductive exn : Type :=
  | HTTPException (status_code : Z) (detail : option string)
  | ValueError (msg : string) (about : option doc)
  | KeyError (key : string)
  | TypeError
  | InvalidId
  | DuplicateKeyError
  | WriteError.

Inductive result (A : Type) : Type :=
  | Ok (a : A)
  | Raise (e : exn).
Arguments Ok {A} a.
Arguments Raise {A} e.

Global Instance result_ret : MRet result := λ A a, Ok a.
Global Instance result_bind : MBind result := λ A B f r,
  match r with Ok a => f a | Raise e => Raise e end.
Global Instance result_fmap : FMap result := λ A B f r,
  match r with Ok a => Ok (f a) | Raise e => Raise e end.

(** [d[k]], which raises [KeyError] on a missing key. *)
Definition getitem (d : doc) (k : string) : result value :=
  match d !! k with
  | Some v => Ok v
  | None => Raise (KeyError k)
  end.

(** ** The monad of a request

    What a request reads from its surroundings: the clock
    ([datetime.utcnow().isoformat()]) and the identifier that a call of
    [ObjectId()] draws.  A handler reads each at most once. *)
Record env : Type := Env {
  utcnow : string;
  fresh_oid : ObjectId
}.

(** A computation reads [env], threads the state [S] of the collection and
    returns a value or raises. *)
Definition M (S A : Type) : Type := env → S → result A * S.

Global Instance M_ret {S} : MRet (M S) := λ A a _ s, (Ok a, s).
Global Instance M_bind {S} : MBind (M S) := λ A B f m e s,
  match m e s with
  | (Ok a, s') => f a e s'
  | (Raise x, s') => (Raise x, s')
  end.

Definition raise {S A} (x : exn) : M S A := λ _ s, (Raise x, s).

(** A pure, possibly raising, computation run inside a handler. *)
Definition lift {S A} (r : result A) : M S A := λ _ s, (r, s).

(** [try: m except Exception: h] *)
Definition try_except {S A} (m : M S A) (h : exn → M S A) : M S A := λ e s,
  match m e s with
  | (Ok a, s') => (Ok a, s')
  | (Raise x, s') => h x e s'
  end.

(** [datetime.utcnow().isoformat()] *)
Definition utcnow_isoformat {S} : M S string := λ e s, (Ok (utcnow e), s).

(** [ObjectId(oid)]: a copy of an ObjectId, the parse of a string, a fresh
    identifier for [None]; [InvalidId] or [TypeError] otherwise. *)
Definition ObjectId_new {S} (oid : value) : M S ObjectId := λ e s,
  match oid with
  | VNone => (Ok (fresh_oid e), s)
  | VOid o => (Ok o, s)
  | VStr str =>
      match Oid.of_str str with
      | Some o => (Ok o, s)
      | None => (Raise InvalidId, s)
      end
  | VBool _ | VInt _ => (Raise TypeError, s)
  end.

(** ** The collection [DB.pet] as the handlers see it *)

Record InsertOneResult : Type := { inserted_id : value }.
Record UpdateResult : Type := { matched_count : Z; modified_count : Z }.
Record DeleteResult : Type := { deleted_count : Z }.

(** The argument of [update_one]: [{"$set": fields}]. *)
Inductive update_spec : Type := Set_ (fields : doc).

(** A cursor is a query under construction; nothing reaches the store before
    [to_list]. *)
Record Cursor : Type := {
  c_filter : doc;
  c_skip : Z;
  c_limit : Z;
  c_sort : option (string * Z)
}.

Definition find (filter : doc) : Cursor :=
  {| c_filter := filter; c_skip := 0; c_limit := 0; c_sort := None |}.

(** [cursor.skip(n)] refuses a negative [n]. *)
Definition Cursor_skip (n : Z) (c : Cursor) : result Cursor :=
  if n <? 0 then Raise (ValueError "skip must be >= 0" None)
  else Ok {| c_filter := c_filter c; c_skip := n; c_limit := c_limit c; c_sort := c_sort c |}.

Definition Cursor_limit (n : Z) (c : Cursor) : Cursor :=
  {| c_filter := c_filter c; c_skip := c_skip c; c_limit := n; c_sort := c_sort c |}.

Definition Cursor_sort (key : string) (direction : Z) (c : Cursor) : Cursor :=
  {| c_filter := c_filter c; c_skip := c_skip c; c_limit := c_limit c;
     c_sort := Some (key, direction) |}.

Class DocumentStore (S : Type) : Type := {
  find_one : doc → M S (option doc);
  to_list : Cursor → Z → M S (list doc);
  count_documents : doc → M S Z;
  insert_one : doc → M S InsertOneResult;
  update_one : doc → update_spec → M S UpdateResult;
  delete_one : doc → M S DeleteResult
}.

(** The members of the enumerations [PetKind] and [PetStatus] (declared in
    [models.py]): each has a [.value] and a truth value. *)
Class PyEnum (E : Type) : Type := {
  enum_value : E → value;
  enum_truthy : E → bool
}.

(** [{"pets": pets_list, "count": pets_count}] *)
Record PetsOut : Type := { pets : list doc; count : Z }.

(** ** The handlers of routes.py *)

(** The truth value of what [find_one] returns: [None] and the empty dict are
    false. *)
Definition found (pet : option doc) : option doc :=
  match pet with
  | Some d => if decide (d = ∅) then None else Some d
  | None => None
  end.

Definition fix_pet_id (pet : doc) : result doc :=
  if truthy (default (VBool false) (pet !! "_id")) then
    _id ← getitem pet "_id";
    Ok (<["id_" := VStr (py_str _id)]> pet)
  else
    Raise (ValueError "No `_id` found! Unable to fix pet ID for pet: " (Some pet)).

Section handlers.
Context {S : Type} `{!DocumentStore S}.
Context {PetKind PetStatus : Type} `{!PyEnum PetKind, !PyEnum PetStatus}.

(** The warning logged under [CONF["fastapi"]["debug"]] changes neither the
    result nor the collection and is left out. *)
Definition validate_object_id (id_ : value) : M S ObjectId :=
  try_except (ObjectId_new id_) (λ _, raise (HTTPException 400 None)).

Definition _get_pet_or_404 (id_ : value) : M S doc :=
  _id ← validate_object_id id_;
  pet ← find_one {["_id" := VOid _id]};
  match found pet with
  | Some pet => lift (fix_pet_id pet)
  | None => raise (HTTPException 404 (Some "Pet not found"))
  end.

(** [if status and kind / elif status / elif kind] over optional enum
    members. *)
Definition opt_truthy {E} `{!PyEnum E} (x : option E) : bool :=
  match x with
  | Some m => enum_truthy m
  | None => false
  end.

(** [x.value] where [x] passed the truth test (so is not [None]). *)
Definition opt_value {E} `{!PyEnum E} (x : option E) : value :=
  match x with
  | Some m => enum_value m
  | None => VNone
  end.

(** Lines 67-73: the filter handed to [find] and [count_documents]. *)
Definition filter_db (kind : option PetKind) (status : option PetStatus) : doc :=
  if opt_truthy status && opt_truthy kind then
    <["kind" := opt_value kind]> {["status" := opt_value status]}
  else if opt_truthy status then
    {["status" := opt_value status]}
  else if opt_truthy kind then
    {["kind" := opt_value kind]}
  else ∅.

Definition get_all_pets (kind : option PetKind) (status : option PetStatus)
    (limit skip : Z) : M S PetsOut :=
  let skip := if skip <? 0 then 0 else skip in
  let limit := if limit <=? 0 then 10 else limit in
  let filter_db := filter_db kind status in
  skipped ← lift (Cursor_skip skip (find filter_db));
  let pets_cursor := Cursor_sort "created_at" (-1) (Cursor_limit limit skipped) in
  pets_count ← count_documents filter_db;
  pets ← to_list pets_cursor limit;
  pets_list ← lift (mapM fix_pet_id pets);
  mret {| pets := pets_list; count := pets_count |}.

(** [pet] is [pet.dict()], the fields of the [PetBase] body. *)
Definition add_pet (pet : doc) : M S (option doc) :=
  date_now ← utcnow_isoformat;
  let pet_data :=
    <["created_at" := VStr date_now]> (<["last_modified" := VStr date_now]> pet) in
  pet_op ← insert_one pet_data;
  if truthy (inserted_id pet_op) then
    pet ← _get_pet_or_404 (inserted_id pet_op);
    _id ← lift (getitem pet "_id");
    mret (Some (<["id_" := VStr (py_str _id)]> pet))
  else mret None.

Definition get_pet_by_id (id_ : ObjectId) : M S doc :=
  pet ← find_one {["_id" := VOid id_]};
  match found pet with
  | Some pet =>
      _id ← lift (getitem pet "_id");
      mret (<["id_" := VStr (py_str _id)]> pet)
  | None => raise (HTTPException 404 (Some "Pet not found"))
  end.

Definition delete_pet_by_id (id_ : string) : M S (option doc) :=
  _id ← ObjectId_new (VStr id_);
  pet_op ← delete_one {["_id" := VOid _id]};
  if truthy (VInt (deleted_count pet_op)) then
    mret (Some {["status" := VStr ("deleted count: " +:+ py_str (VInt (deleted_count pet_op)))]})
  else mret None.

Definition update_pet (id_ : string) (pet : doc) : M S doc :=
  now ← utcnow_isoformat;
  let pet_data := <["last_modified" := VStr now]> pet in
  _id ← ObjectId_new (VStr id_);
  pet_op ← update_one {["_id" := VOid _id]} (Set_ pet_data);
  if truthy (VInt (modified_count pet_op)) then _get_pet_or_404 (VStr id_)
  else raise (HTTPException 304 None).

(** *** The routes: dependencies first, then the handler

    FastAPI resolves the dependencies of a route in order, each from the
    path parameter [id_]; an exception raised by one is the response and
    the handler does not run. *)

(** [GET /{id_}]: [id_: ObjectId = Depends(validate_object_id)] *)
Definition route_get_pet_by_id (id_ : string) : M S doc :=
  _id ← validate_object_id (VStr id_);
  get_pet_by_id _id.

(** [DELETE /{id_}]: [dependencies=[Depends(_get_pet_or_404)]] *)
Definition route_delete_pet_by_id (id_ : string) : M S (option doc) :=
  _ ← _get_pet_or_404 (VStr id_);
  delete_pet_by_id id_.

(** [PUT /{id_}]:
    [dependencies=[Depends(validate_object_id), Depends(_get_pet_or_404)]] *)
Definition route_update_pet (id_ : string) (pet : doc) : M S doc :=
  _ ← validate_object_id (VStr id_);
  _ ← _get_pet_or_404 (VStr id_);
  update_pet id_ pet.

End handlers.

(** ** The reference store: a MongoDB collection

    The documents in natural (insertion) order.  The operations follow the
    documented behaviour of the driver: equality filters, first match for the
    [_one] operations, a unique index on [_id]. *)

Module Mongo.

Abbreviation collection := (list doc).

(** [{k: v}] selects the documents whose field [k] equals [v]; [{k: null}]
    also those without the field. *)
Definition field_matches (d : doc) (k : string) (v : value) : Prop :=
  d !! k = Some v ∨ (v = VNone ∧ d !! k = None).

Definition matches (filter d : doc) : Prop := map_Forall (field_matches d) filter.

Global Instance field_matches_dec d k v : Decision (field_matches d k v).
Proof. unfold field_matches. apply _. Defined.

Global Instance matches_dec filter d : Decision (matches filter d).
Proof. unfold matches. apply _. Defined.

(** The BSON comparison order, on the types [value] has: null, then numbers,
    strings, ObjectIds, booleans. *)
Definition bson_rank (v : value) : N :=
  match v with
  | VNone => 1 | VInt _ => 2 | VStr _ => 3 | VOid _ => 7 | VBool _ => 8
  end.

Definition bson_compare (a b : value) : comparison :=
  match a, b with
  | VInt x, VInt y => x ?= y
  | VStr x, VStr y => String.compare x y
  | VOid x, VOid y => (Oid.to_N x ?= Oid.to_N y)%N
  | VBool x, VBool y => Bool.compare x y
  | _, _ => (bson_rank a ?= bson_rank b)%N
  end.

(** The order [sort(key, direction)] asks for; a missing field sorts as null. *)
Definition sort_before (key : string) (direction : Z) (a b : doc) : Prop :=
  let ka := default VNone (a !! key) in
  let kb := default VNone (b !! key) in
  if direction <? 0 then bson_compare ka kb ≠ Lt else bson_compare ka kb ≠ Gt.

Global Instance sort_before_dec key direction : RelDecision (sort_before key direction).
Proof. intros a b. unfold sort_before. destruct (direction <? 0); apply _. Defined.

(** What a cursor yields: filter, sort, skip, limit (0 is no limit). *)
Definition run_cursor (c : Cursor) (docs : collection) : list doc :=
  let matched := filter (matches (c_filter c)) docs in
  let sorted :=
    match c_sort c with
    | Some (key, direction) => merge_sort (sort_before key direction) matched
    | None => matched
    end in
  let skipped := drop (Z.to_nat (c_skip c)) sorted in
  if c_limit c =? 0 then skipped else take (Z.to_nat (Z.abs (c_limit c))) skipped.

Definition find_one (filter : doc) : M collection (option doc) := λ _ docs,
  (Ok (snd <$> list_find (matches filter) docs), docs).

Definition to_list (c : Cursor) (length : Z) : M collection (list doc) := λ _ docs,
  (Ok (take (Z.to_nat length) (run_cursor c docs)), docs).

Definition count_documents (filter : doc) : M collection Z := λ _ docs,
  (Ok (Z.of_nat (length (base.filter (matches filter) docs))), docs).

(** The driver gives the document a fresh [_id] when it has none; the unique
    index refuses an [_id] that is taken. *)
Definition insert_one (document : doc) : M collection InsertOneResult := λ e docs,
  let _id := default (VOid (fresh_oid e)) (document !! "_id") in
  let document := <["_id" := _id]> document in
  match list_find (λ d, d !! "_id" = Some _id) docs with
  | Some _ => (Raise DuplicateKeyError, docs)
  | None => (Ok {| inserted_id := _id |}, docs ++ [document])
  end.

(** [$set] merges the fields into the first match; [_id] is immutable; a
    document that comes out equal is matched but not modified. *)
Definition update_one (filter : doc) (update : update_spec)
    : M collection UpdateResult := λ _ docs,
  let 'Set_ fields := update in
  match list_find (matches filter) docs with
  | None => (Ok {| matched_count := 0; modified_count := 0 |}, docs)
  | Some (i, old) =>
      let new := fields ∪ old in
      if decide (new !! "_id" = old !! "_id") then
        if decide (new = old) then
          (Ok {| matched_count := 1; modified_count := 0 |}, docs)
        else
          (Ok {| matched_count := 1; modified_count := 1 |}, <[i := new]> docs)
      else (Raise WriteError, docs)
  end.

Definition delete_one (filter : doc) : M collection DeleteResult := λ _ docs,
  match list_find (matches filter) docs with
  | None => (Ok {| deleted_count := 0 |}, docs)
  | Some (i, _) => (Ok {| deleted_count := 1 |}, delete i docs)
  end.

(** The ObjectId a document has under [_id], if it has one. *)
Definition doc_oid (d : doc) : option ObjectId :=
  match d !! "_id" with
  | Some (VOid o) => Some o
  | _ => None
  end.

(** What MongoDB guarantees of a collection whose documents were inserted
    with driver-generated identifiers: every document has an ObjectId
    [_id], and no two share one. *)
Definition wf (docs : collection) : Prop :=
  Forall (λ d, is_Some (doc_oid d)) docs ∧ NoDup (doc_oid <$> docs).

Global Instance wf_dec docs : Decision (wf docs).
Proof. unfold wf. apply _. Defined.

End Mongo.

Global Instance MongoStore : DocumentStore Mongo.collection := {|
  find_one := Mongo.find_one;
  to_list := Mongo.to_list;
  count_documents := Mongo.count_documents;
  insert_one := Mongo.insert_one;
  update_one := Mongo.update_one;
  delete_one := Mongo.delete_one
|}.

(** A store whose [insert_one] stores the document but reports no
    identifier; everything else is the reference store. *)
Definition SilentStore : DocumentStore Mongo.collection := {|
  find_one := Mongo.find_one;
  to_list := Mongo.to_list;
  count_documents := Mongo.count_documents;
  insert_one := λ document e docs,
    match Mongo.insert_one document e docs with
    | (Ok _, docs') => (Ok {| inserted_id := VNone |}, docs')
    | (Raise x, docs') => (Raise x, docs')
    end;
  update_one := Mongo.update_one;
  delete_one := Mongo.delete_one
|}.

(** An enumeration that mixes in [str]: a member is its value, and is true
    unless the value is the empty string. *)
Global Instance str_enum : PyEnum string := {|
  enum_value s := VStr s;
  enum_truthy s := negb (String.eqb s "")
|}.

(** ** Payloads, timestamps and sequences of requests *)

(** The body of a create or update request carries neither the identifier
    nor the timestamps ([PetBase] has every field of a pet but those). *)
Definition payload_ok (pet : doc) : Prop :=
  pet !! "_id" = None ∧ pet !! "id_" = None ∧
  pet !! "created_at" = None ∧ pet !! "last_modified" = None.

Global Instance payload_ok_dec pet : Decision (payload_ok pet).
Proof. unfold payload_ok. apply _. Defined.

(** ISO-8601 timestamps as [isoformat()] prints them are compared as strings:
    the fields are zero-padded, so the order of the strings is the order of
    the instants.  [stamped t d]: [created_at <= last_modified <= t]. *)
Definition stamped (t : string) (d : doc) : Prop :=
  ∃ c m, d !! "created_at" = Some (VStr c) ∧ d !! "last_modified" = Some (VStr m) ∧
         String.le c m ∧ String.le m t.

Definition created_before_modified (d : doc) : Prop :=
  ∃ c m, d !! "created_at" = Some (VStr c) ∧ d !! "last_modified" = Some (VStr m) ∧
         String.le c m.

Inductive request : Type :=
  | Create (pet : doc)
  | Update (id_ : string) (pet : doc)
  | Delete (id_ : string)
  | Get (id_ : string).

(** The collection after one request, served at the instant and with the
    identifier supply of [e]. *)
Definition serve (e : env) (r : request) (docs : Mongo.collection) : Mongo.collection :=
  match r with
  | Create pet => snd (add_pet pet e docs)
  | Update id_ pet => snd (route_update_pet id_ pet e docs)
  | Delete id_ => snd (route_delete_pet_by_id id_ e docs)
  | Get id_ => snd (route_get_pet_by_id id_ e docs)
  end.

Fixpoint serve_all (reqs : list (env * request)) (docs : Mongo.collection)
    : Mongo.collection :=
  match reqs with
  | [] => docs
  | (e, r) :: reqs => serve_all reqs (serve e r docs)
  end.

(** The update payloads of a sequence leave [created_at] alone. *)
Definition updates_ok (reqs : list (env * request)) : Prop :=
  Forall (λ er, match er.2 with
                | Update _ pet => pet !! "created_at" = None
                | _ => True
                end) reqs.

(** The clock does not run backwards: the readings, from [t0] on, ascend. *)
Fixpoint clock_ascends (t0 : string) (reqs : list (env * request)) : Prop :=
  match reqs with
  | [] => True
  | (e, _) :: reqs => String.le t0 (utcnow e) ∧ clock_ascends (utcnow e) reqs
  end.

(** ** Sample data *)

Module Sample.

Definition oid1 : ObjectId :=
  (x5e, x0b, xe1, x00, x00, x00, x00, x00, x00, x00, x00, x01)%byte.
Definition oid2 : ObjectId :=
  (x5e, x0b, xe1, x00, x00, x00, x00, x00, x00, x00, x00, x02)%byte.

Definition rex : doc :=
  {[ "kind" := VStr "dog"; "status" := VStr "available"; "name" := VStr "Rex" ]}.

Definition rex_adopted : doc :=
  {[ "kind" := VStr "dog"; "status" := VStr "adopted"; "name" := VStr "Rex" ]}.

(** Two instants, and the identifiers the driver draws at them. *)
Definition monday : env := {| utcnow := "2020-01-06T09:30:00.000250"; fresh_oid := oid1 |}.
Definition tuesday : env := {| utcnow := "2020-01-07T18:05:12.431907"; fresh_oid := oid2 |}.

(** The collection after Rex was created on Monday. *)
Definition kennel : Mongo.collection := snd (add_pet rex monday []).

(** Rex as stored in [kennel]. *)
Definition rex_stored : doc :=
  <["_id" := VOid oid1]>
    (<["created_at" := VStr (utcnow monday)]>
       (<["last_modified" := VStr (utcnow monday)]> rex)).

(** A document that already carries an [id_]. *)
Definition labelled : doc := {[ "_id" := VOid oid1; "id_" := VStr "stale" ]}.

End Sample.

(** ** Listing, spelled out *)

(** What [fix_pet_id] makes of a document when it returns. *)
Definition with_id_ (d : doc) : doc :=
  <["id_" := VStr (py_str (default VNone (d !! "_id")))]> d.

(** [skip] and [limit] as lines 62-65 leave them. *)
Definition clamp_skip (skip : Z) : Z := if skip <? 0 then 0 else skip.
Definition clamp_limit (limit : Z) : Z := if limit <=? 0 then 10 else limit.

(** The cursor of lines 74-77. *)
Definition pets_cursor (filter : doc) (limit skip : Z) : Cursor :=
  {| c_filter := filter; c_skip := clamp_skip skip; c_limit := clamp_limit limit;
     c_sort := Some ("created_at", -1) |}.

(** The documents of the reference collection that a filter selects, newest
    first. *)
Definition selected (flt : doc) (docs : Mongo.collection) : list doc :=
  merge_sort (Mongo.sort_before "created_at" (-1)) (filter (Mongo.matches flt) docs).

(** A second pet. *)
Module Shelter.

Definition tom : doc :=
  {[ "kind" := VStr "cat"; "status" := VStr "pending"; "name" := VStr "Tom" ]}.

(** Rex came on Monday, Tom on Tuesday. *)
Definition two_pets : Mongo.collection := snd (add_pet tom Sample.tuesday Sample.kennel).

Definition tom_stored : doc :=
  <["_id" := VOid Sample.oid2]>
    (<["created_at" := VStr (utcnow Sample.tuesday)]>
       (<["last_modified" := VStr (utcnow Sample.tuesday)]> tom)).

(** A document whose [_id] is the number zero. *)
Definition zero_id : doc := {[ "_id" := VInt 0; "name" := VStr "Nemo" ]}.

End Shelter.

(** * Properties *)

(** ** Identifiers *)

Lemma hex_byte_hex (b : byte) :
  Oid.hex_byte (Oid.hex_digit (Byte.to_N b / 16)) (Oid.hex_digit (Byte.to_N b mod 16)) = Some b.
Proof. destruct b; reflexivity. Qed.

(** Parsing the string form of an identifier gives the identifier back. *)
Lemma of_str_to_str (o : ObjectId) : Oid.of_str (Oid.to_str o) = Some o.
Proof.
  destruct o as [[[[[[[[[[[b1 b2] b3] b4] b5] b6] b7] b8] b9] b10] b11] b12].
  unfold Oid.of_str, Oid.to_str, Oid.byte_hex. cbn [list_ascii_of_string].
  by rewrite !hex_byte_hex.
Qed.

Lemma ObjectId_new_str {S} (id_ : string) (o : ObjectId) (e : env) (s : S) :
  Oid.of_str id_ = Some o → ObjectId_new (VStr id_) e s = (Ok o, s).
Proof. intros H. unfold ObjectId_new. by rewrite H. Qed.

(** ** fix_pet_id *)

Lemma fix_pet_id_truthy (pet : doc) (v : value) :
  pet !! "_id" = Some v → truthy v = true →
  fix_pet_id pet = Ok (<["id_" := VStr (py_str v)]> pet).
Proof.
  intros Hid Hv. unfold fix_pet_id, getitem. rewrite Hid. cbn. by rewrite Hv.
Qed.

Lemma fix_pet_id_falsy (pet : doc) :
  truthy (default (VBool false) (pet !! "_id")) = false →
  fix_pet_id pet =
    Raise (ValueError "No `_id` found! Unable to fix pet ID for pet: " (Some pet)).
Proof. intros H. unfold fix_pet_id. by rewrite H. Qed.

(** C10 (as amended).  On a document whose ["_id"] is truthy, [fix_pet_id]
    returns the document with [id_] set to the string form of [_id] and every
    other field as it was: the field is added when the document had no [id_]
    and overwritten when it had one.  On a document without a truthy ["_id"]
    it raises instead of returning. *)
Theorem fix_pet_id_sets_id_field (pet : doc) :
  (∀ v, pet !! "_id" = Some v → truthy v = true →
     ∃ r, fix_pet_id pet = Ok r ∧
          r !! "id_" = Some (VStr (py_str v)) ∧
          (∀ k, k ≠ "id_" → r !! k = pet !! k) ∧
          dom r = {["id_"]} ∪ dom pet ∧
          size r = match pet !! "id_" with Some _ => size pet | None => Datatypes.S (size pet) end) ∧
  ((∀ v, pet !! "_id" = Some v → truthy v = false) → ∃ e, fix_pet_id pet = Raise e).
Proof.
  split.
  - intros v Hid Hv. eexists. split; [by apply fix_pet_id_truthy|].
    split_and!.
    + by rewrite lookup_insert_eq.
    + intros k Hk. by rewrite lookup_insert_ne.
    + by rewrite dom_insert_L.
    + rewrite map_size_insert. by destruct (pet !! "id_").
  - intros Hfalsy. eexists. apply fix_pet_id_falsy.
    destruct (pet !! "_id") as [v|] eqn:Hid; [by apply Hfalsy|done].
Qed.

Lemma fix_pet_id_sets_id_field_witness :
  (∃ r, fix_pet_id Sample.rex_stored = Ok r ∧
        r !! "id_" = Some (VStr "5e0be1000000000000000001") ∧
        (∀ k, k ≠ "id_" → r !! k = Sample.rex_stored !! k) ∧
        dom r = {["id_"]} ∪ dom Sample.rex_stored ∧
        size r = 7%nat) ∧
  (∃ e, fix_pet_id Sample.rex = Raise e).
Proof.
  split.
  - apply (proj1 (fix_pet_id_sets_id_field Sample.rex_stored) (VOid Sample.oid1));
      reflexivity.
  - apply (proj2 (fix_pet_id_sets_id_field Sample.rex)).
    intros v Hv. vm_compute in Hv. discriminate.
Defined.

(** C10 as stated fails on a document that already has an [id_]: no field is
    added, the field that changes is [id_] itself. *)
Lemma fix_pet_id_adds_no_field_when_labelled :
  Sample.labelled !! "_id" = Some (VOid Sample.oid1) ∧
  truthy (VOid Sample.oid1) = true ∧
  ∃ r, fix_pet_id Sample.labelled = Ok r ∧
       dom r = dom Sample.labelled ∧
       size r = size Sample.labelled ∧
       r !! "id_" ≠ Sample.labelled !! "id_".
Proof.
  split; [reflexivity|]. split; [reflexivity|].
  eexists. split; [reflexivity|].
  split_and!; [by vm_compute | by vm_compute | by vm_compute].
Qed.

(** ** The reference store *)

Local Arguments Mongo.find_one : simpl never.
Local Arguments Mongo.to_list : simpl never.
Local Arguments Mongo.count_documents : simpl never.
Local Arguments Mongo.insert_one : simpl never.
Local Arguments Mongo.update_one : simpl never.
Local Arguments Mongo.delete_one : simpl never.
Local Arguments found : simpl never.
Local Arguments fix_pet_id : simpl never.
Local Arguments getitem : simpl never.

Ltac run :=
  unfold mbind, M_bind, mret, M_ret, raise, lift, try_except, utcnow_isoformat; cbn.

Lemma found_Some (d : doc) : d ≠ ∅ → found (Some d) = Some d.
Proof. intros H. unfold found. by destruct (decide (d = ∅)). Qed.

Lemma has_id_nonempty (d : doc) (v : value) : d !! "_id" = Some v → d ≠ ∅.
Proof. intros H ->. by rewrite lookup_empty in H. Qed.

Lemma matches_id (o : ObjectId) (d : doc) :
  Mongo.matches {["_id" := VOid o]} d ↔ d !! "_id" = Some (VOid o).
Proof.
  unfold Mongo.matches. rewrite map_Forall_singleton. unfold Mongo.field_matches.
  split; [intros [H|[H _]]; [done|discriminate] | by left].
Qed.

Lemma doc_oid_Some (d : doc) (o : ObjectId) :
  Mongo.doc_oid d = Some o ↔ d !! "_id" = Some (VOid o).
Proof.
  unfold Mongo.doc_oid. destruct (d !! "_id") as [[]|]; split; congruence.
Qed.

Lemma validate_object_id_str {S} `{!DocumentStore S} (id_ : string) (o : ObjectId)
    (e : env) (s : S) :
  Oid.of_str id_ = Some o → validate_object_id (VStr id_) e s = (Ok o, s).
Proof. intros H. unfold validate_object_id. run. by rewrite H. Qed.

Lemma validate_object_id_invalid {S} `{!DocumentStore S} (id_ : string)
    (e : env) (s : S) :
  Oid.of_str id_ = None →
  validate_object_id (VStr id_) e s = (Raise (HTTPException 400 None), s).
Proof. intros H. unfold validate_object_id. run. by rewrite H. Qed.

Lemma validate_object_id_oid {S} `{!DocumentStore S} (o : ObjectId) (e : env) (s : S) :
  validate_object_id (VOid o) e s = (Ok o, s).
Proof. reflexivity. Qed.

Local Arguments ObjectId_new : simpl never.

Section reference_store.
Implicit Types (docs : Mongo.collection) (d pet : doc) (o : ObjectId) (e : env).

Lemma find_one_id docs o e :
  Mongo.find_one {["_id" := VOid o]} e docs =
    (Ok (snd <$> list_find (λ d, d !! "_id" = Some (VOid o)) docs), docs).
Proof.
  unfold Mongo.find_one. do 2 f_equal. f_equal.
  apply list_find_ext. intros d. apply matches_id.
Qed.

Lemma get_pet_or_404_found docs (v : value) o i d e :
  validate_object_id v e docs = (Ok o, docs) →
  list_find (λ d, d !! "_id" = Some (VOid o)) docs = Some (i, d) →
  _get_pet_or_404 v e docs = (Ok (<["id_" := VStr (Oid.to_str o)]> d), docs).
Proof.
  intros Hv Hfind. unfold _get_pet_or_404. run. rewrite Hv.
  rewrite find_one_id, Hfind. cbn.
  apply list_find_Some in Hfind as (_ & Hid & _).
  rewrite found_Some by eauto using has_id_nonempty.
  by rewrite (fix_pet_id_truthy d (VOid o)).
Qed.

Lemma get_pet_or_404_missing docs (v : value) o e :
  validate_object_id v e docs = (Ok o, docs) →
  list_find (λ d, d !! "_id" = Some (VOid o)) docs = None →
  _get_pet_or_404 v e docs = (Raise (HTTPException 404 (Some "Pet not found")), docs).
Proof.
  intros Hv Hfind. unfold _get_pet_or_404. run. rewrite Hv.
  by rewrite find_one_id, Hfind.
Qed.

Lemma get_pet_by_id_found docs o i d e :
  list_find (λ d, d !! "_id" = Some (VOid o)) docs = Some (i, d) →
  get_pet_by_id o e docs = (Ok (<["id_" := VStr (Oid.to_str o)]> d), docs).
Proof.
  intros Hfind. unfold get_pet_by_id. run.
  rewrite find_one_id, Hfind. cbn.
  apply list_find_Some in Hfind as (_ & Hid & _).
  rewrite found_Some by eauto using has_id_nonempty.
  unfold getitem. by rewrite Hid.
Qed.

Lemma get_pet_by_id_missing docs o e :
  list_find (λ d, d !! "_id" = Some (VOid o)) docs = None →
  get_pet_by_id o e docs = (Raise (HTTPException 404 (Some "Pet not found")), docs).
Proof.
  intros Hfind. unfold get_pet_by_id. run. by rewrite find_one_id, Hfind.
Qed.

End reference_store.

(** ** Create, then get *)

Lemma insert_one_fresh (docs : Mongo.collection) (document : doc) (e : env) :
  document !! "_id" = None →
  Forall (λ d, d !! "_id" ≠ Some (VOid (fresh_oid e))) docs →
  Mongo.insert_one document e docs =
    (Ok {| inserted_id := VOid (fresh_oid e) |},
     docs ++ [<["_id" := VOid (fresh_oid e)]> document]).
Proof.
  intros Hnone Hfresh. unfold Mongo.insert_one. rewrite Hnone. cbn.
  by rewrite (proj2 (list_find_None _ _) Hfresh).
Qed.

Lemma list_find_snoc_fresh (docs : Mongo.collection) (d : doc) (o : ObjectId) :
  Forall (λ d, d !! "_id" ≠ Some (VOid o)) docs →
  d !! "_id" = Some (VOid o) →
  list_find (λ d, d !! "_id" = Some (VOid o)) (docs ++ [d]) = Some (length docs, d).
Proof.
  intros Hfresh Hd. rewrite list_find_app_r by by apply list_find_None.
  cbn. by rewrite decide_True.
Qed.

(** What [add_pet] stores and returns when the driver draws an identifier
    that is not in use. *)
Lemma add_pet_fresh (docs : Mongo.collection) (pet : doc) (e : env) :
  pet !! "_id" = None →
  Forall (λ d, d !! "_id" ≠ Some (VOid (fresh_oid e))) docs →
  let stored :=
    <["_id" := VOid (fresh_oid e)]>
      (<["created_at" := VStr (utcnow e)]> (<["last_modified" := VStr (utcnow e)]> pet)) in
  add_pet pet e docs =
    (Ok (Some (<["id_" := VStr (Oid.to_str (fresh_oid e))]> stored)), docs ++ [stored]).
Proof.
  intros Hnone Hfresh stored. unfold add_pet. run.
  rewrite insert_one_fresh; [|by rewrite !lookup_insert_ne|done]. cbn.
  erewrite get_pet_or_404_found;
    [|reflexivity|apply list_find_snoc_fresh; [done|by rewrite lookup_insert_eq]].
  unfold getitem. rewrite lookup_insert_ne by done. rewrite lookup_insert_eq.
  by rewrite insert_insert_eq.
Qed.

(** C1.  A valid payload is created and then fetched by the identifier that
    create returned: the document fetched has every field of the payload
    with its value, [created_at] and [last_modified] both holding the one
    timestamp read at creation, the identifier under [_id] and [id_], and
    nothing else. *)
Theorem create_then_get (docs : Mongo.collection) (pet : doc) (e e' : env) :
  payload_ok pet →
  Forall (λ d, d !! "_id" ≠ Some (VOid (fresh_oid e))) docs →
  ∃ created id_ docs' got,
    add_pet pet e docs = (Ok (Some created), docs') ∧
    created !! "id_" = Some (VStr id_) ∧
    route_get_pet_by_id id_ e' docs' = (Ok got, docs') ∧
    (∀ k v, pet !! k = Some v → got !! k = Some v) ∧
    got !! "created_at" = Some (VStr (utcnow e)) ∧
    got !! "last_modified" = Some (VStr (utcnow e)) ∧
    got !! "_id" = Some (VOid (fresh_oid e)) ∧
    got !! "id_" = Some (VStr id_) ∧
    dom got = dom pet ∪ {["created_at"; "last_modified"; "_id"; "id_"]} ∧
    got = created.
Proof.
  intros (Hid & Hid_ & Hc & Hm) Hfresh.
  eexists _, (Oid.to_str (fresh_oid e)), _, _.
  split; [by apply add_pet_fresh|].
  split; [by rewrite lookup_insert_eq|].
  split.
  { unfold route_get_pet_by_id. run.
    rewrite (validate_object_id_str _ (fresh_oid e)) by apply of_str_to_str.
    eapply get_pet_by_id_found, list_find_snoc_fresh;
      [done|by rewrite lookup_insert_eq]. }
  split_and!; [|by simplify_map_eq..| |done].
  - intros k v Hk.
    rewrite !lookup_insert_ne; [done|congruence..].
  - rewrite !dom_insert_L. set_solver.
Qed.

Lemma create_then_get_witness :
  payload_ok Sample.rex_adopted ∧
  ∃ created id_ docs' got,
    add_pet Sample.rex_adopted Sample.tuesday Sample.kennel = (Ok (Some created), docs') ∧
    created !! "id_" = Some (VStr id_) ∧
    route_get_pet_by_id id_ Sample.monday docs' = (Ok got, docs') ∧
    (∀ k v, Sample.rex_adopted !! k = Some v → got !! k = Some v) ∧
    got !! "created_at" = Some (VStr "2020-01-07T18:05:12.431907") ∧
    got !! "last_modified" = Some (VStr "2020-01-07T18:05:12.431907") ∧
    got !! "_id" = Some (VOid Sample.oid2) ∧
    got !! "id_" = Some (VStr id_) ∧
    dom got = dom Sample.rex_adopted ∪ {["created_at"; "last_modified"; "_id"; "id_"]} ∧
    got = created.
Proof.
  split; [by vm_compute|].
  apply (create_then_get Sample.kennel Sample.rex_adopted Sample.tuesday Sample.monday).
  - by vm_compute.
  - apply (bool_decide_unpack _). by vm_compute.
Defined.

(** ** Update *)

(** In a well-formed collection an identifier addresses one document. *)
Lemma wf_list_find (docs : Mongo.collection) (i : nat) (d : doc) (o : ObjectId) :
  Mongo.wf docs → docs !! i = Some d → Mongo.doc_oid d = Some o →
  list_find (λ d, d !! "_id" = Some (VOid o)) docs = Some (i, d).
Proof.
  intros [_ Hnodup] Hi Ho. apply list_find_Some.
  split_and!; [done|by apply doc_oid_Some|].
  intros j y Hj Hlt Hy%doc_oid_Some.
  assert (j = i); [|lia].
  eapply NoDup_lookup; [done|..]; rewrite list_lookup_fmap.
  - by rewrite Hj; cbn; rewrite Hy.
  - by rewrite Hi; cbn; rewrite Ho.
Qed.

Lemma list_find_id_insert (docs : Mongo.collection) (i : nat) (old new : doc)
    (o : ObjectId) :
  list_find (λ d, d !! "_id" = Some (VOid o)) docs = Some (i, old) →
  new !! "_id" = Some (VOid o) →
  list_find (λ d, d !! "_id" = Some (VOid o)) (<[i := new]> docs) = Some (i, new).
Proof.
  intros (Hi & _ & Hleast)%list_find_Some Hnew. apply list_find_Some.
  split_and!; [|done|].
  - apply list_lookup_insert_eq. eauto using lookup_lt_Some.
  - intros j y Hj Hlt. rewrite list_lookup_insert_ne in Hj by lia. eauto.
Qed.

Lemma update_one_set (docs : Mongo.collection) (o : ObjectId) (i : nat)
    (old fields : doc) (e : env) :
  list_find (λ d, d !! "_id" = Some (VOid o)) docs = Some (i, old) →
  (fields ∪ old) !! "_id" = old !! "_id" →
  Mongo.update_one {["_id" := VOid o]} (Set_ fields) e docs =
    if decide (fields ∪ old = old)
    then (Ok {| matched_count := 1; modified_count := 0 |}, docs)
    else (Ok {| matched_count := 1; modified_count := 1 |}, <[i := fields ∪ old]> docs).
Proof.
  intros Hfind Hid. unfold Mongo.update_one.
  rewrite (list_find_ext _ (λ d, d !! "_id" = Some (VOid o))) by apply matches_id.
  rewrite Hfind. by rewrite decide_True.
Qed.

Lemma update_one_missing (docs : Mongo.collection) (o : ObjectId) (fields : doc)
    (e : env) :
  list_find (λ d, d !! "_id" = Some (VOid o)) docs = None →
  Mongo.update_one {["_id" := VOid o]} (Set_ fields) e docs =
    (Ok {| matched_count := 0; modified_count := 0 |}, docs).
Proof.
  intros Hfind. unfold Mongo.update_one.
  rewrite (list_find_ext _ (λ d, d !! "_id" = Some (VOid o))) by apply matches_id.
  by rewrite Hfind.
Qed.

(** C2 (as amended).  A stored document is updated with a payload whose
    fields all equal the stored ones.  The update still stamps
    [last_modified]: it yields 304 exactly when the stamp equals the stored
    [last_modified]; otherwise it succeeds, re-stamps [last_modified] and
    returns the document. *)
Theorem update_identical_payload (docs : Mongo.collection) (i : nat)
    (stored pet : doc) (o : ObjectId) (e : env) :
  Mongo.wf docs → docs !! i = Some stored → Mongo.doc_oid stored = Some o →
  pet ⊆ stored →
  route_update_pet (Oid.to_str o) pet e docs =
    if decide (stored !! "last_modified" = Some (VStr (utcnow e)))
    then (Raise (HTTPException 304 None), docs)
    else
      let updated := <["last_modified" := VStr (utcnow e)]> stored in
      (Ok (<["id_" := VStr (Oid.to_str o)]> updated), <[i := updated]> docs).
Proof.
  intros Hwf Hi Ho Hsub.
  pose proof (wf_list_find _ _ _ _ Hwf Hi Ho) as Hfind.
  assert (<["last_modified" := VStr (utcnow e)]> pet ∪ stored
          = <["last_modified" := VStr (utcnow e)]> stored) as Hmerge.
  { by rewrite <-insert_union_l, map_subseteq_union. }
  unfold route_update_pet. run.
  rewrite (validate_object_id_str _ o) by apply of_str_to_str.
  erewrite get_pet_or_404_found;
    [|by apply validate_object_id_str, of_str_to_str|done].
  unfold update_pet. run.
  rewrite (ObjectId_new_str _ o) by apply of_str_to_str.
  rewrite (update_one_set _ _ i stored); [|done|].
  2:{ rewrite Hmerge. by rewrite lookup_insert_ne. }
  rewrite Hmerge.
  destruct (decide (stored !! "last_modified" = Some (VStr (utcnow e)))) as [Hsame|Hnew].
  - by rewrite decide_True by by apply insert_id.
  - rewrite decide_False.
    2:{ intros Heq. apply Hnew. by rewrite <-Heq, lookup_insert_eq. }
    cbn. eapply get_pet_or_404_found.
    + by apply validate_object_id_str, of_str_to_str.
    + eapply list_find_id_insert; [done|].
      rewrite lookup_insert_ne by done. by apply doc_oid_Some.
Qed.

Lemma update_identical_payload_witness :
  Mongo.wf Sample.kennel ∧ Sample.rex ⊆ Sample.rex_stored ∧
  route_update_pet (Oid.to_str Sample.oid1) Sample.rex Sample.tuesday Sample.kennel =
    (Ok (<["id_" := VStr (Oid.to_str Sample.oid1)]>
           (<["last_modified" := VStr (utcnow Sample.tuesday)]> Sample.rex_stored)),
     [<["last_modified" := VStr (utcnow Sample.tuesday)]> Sample.rex_stored]) ∧
  route_update_pet (Oid.to_str Sample.oid1) Sample.rex Sample.monday Sample.kennel =
    (Raise (HTTPException 304 None), Sample.kennel).
Proof.
  assert (Mongo.wf Sample.kennel) as Hwf.
  { apply (bool_decide_unpack _). by vm_compute. }
  assert (Sample.rex ⊆ Sample.rex_stored) as Hsub.
  { apply (bool_decide_unpack _). by vm_compute. }
  split_and!; [done..| |].
  - apply (update_identical_payload Sample.kennel 0 Sample.rex_stored Sample.rex
             Sample.oid1 Sample.tuesday Hwf); [reflexivity|reflexivity|exact Hsub].
  - apply (update_identical_payload Sample.kennel 0 Sample.rex_stored Sample.rex
             Sample.oid1 Sample.monday Hwf); [reflexivity|reflexivity|exact Hsub].
Defined.

(** C2 as stated fails: Rex, stored on Monday, is updated on Tuesday with the
    very fields he was stored with; the update succeeds and returns him with
    [last_modified] moved to Tuesday, where the claim has 304. *)
Lemma update_identical_payload_succeeds :
  Sample.kennel = [Sample.rex_stored] ∧
  Sample.rex ⊆ Sample.rex_stored ∧
  ∃ updated,
    fst (route_update_pet (Oid.to_str Sample.oid1) Sample.rex Sample.tuesday Sample.kennel)
      = Ok updated ∧
    updated !! "last_modified" = Some (VStr "2020-01-07T18:05:12.431907") ∧
    fst (route_update_pet (Oid.to_str Sample.oid1) Sample.rex Sample.tuesday Sample.kennel)
      ≠ Raise (HTTPException 304 None).
Proof.
  split; [by vm_compute|].
  split; [apply (bool_decide_unpack _); by vm_compute|].
  eexists. split; [by vm_compute|]. split; [by vm_compute|].
  by vm_compute.
Qed.

(** ** Create without a reported identifier *)

(** C3 (as amended).  Whatever the store, when [insert_one] returns and the
    identifier it reports is not truthy, [add_pet] raises nothing: it returns
    [None], leaving the collection as [insert_one] left it. *)
Theorem add_pet_no_inserted_id {S} `{!DocumentStore S} (pet : doc) (e : env)
    (s s' : S) (pet_op : InsertOneResult) :
  insert_one (<["created_at" := VStr (utcnow e)]>
                (<["last_modified" := VStr (utcnow e)]> pet)) e s = (Ok pet_op, s') →
  truthy (inserted_id pet_op) = false →
  add_pet pet e s = (Ok None, s').
Proof.
  intros Hins Hfalsy. unfold add_pet. run. rewrite Hins. by rewrite Hfalsy.
Qed.

Lemma add_pet_no_inserted_id_witness :
  @add_pet _ SilentStore Sample.rex Sample.monday [] = (Ok None, Sample.kennel).
Proof.
  apply (@add_pet_no_inserted_id _ SilentStore Sample.rex Sample.monday []
           Sample.kennel {| inserted_id := VNone |}); reflexivity.
Defined.

(** C3 as stated fails: on a store that keeps the document but reports no
    identifier, create does not fail; it returns [None]. *)
Lemma add_pet_silent_store_returns_none :
  (∃ docs', @insert_one _ SilentStore
              (<["created_at" := VStr (utcnow Sample.monday)]>
                 (<["last_modified" := VStr (utcnow Sample.monday)]> Sample.rex))
              Sample.monday [] = (Ok {| inserted_id := VNone |}, docs')) ∧
  fst (@add_pet _ SilentStore Sample.rex Sample.monday []) = Ok None ∧
  ∀ x, fst (@add_pet _ SilentStore Sample.rex Sample.monday []) ≠ Raise x.
Proof.
  split; [by eexists|]. split; [reflexivity|]. intros x. by vm_compute.
Qed.

(** ** Update of an unknown identifier *)

(** Whatever the store: when the lookup of the dependency finds nothing, the
    route raises 404 from the state the lookup left; neither [update_pet] nor
    [update_one] is reached. *)
Lemma route_update_pet_stops_at_lookup {S} `{!DocumentStore S} (id_ : string)
    (o : ObjectId) (pet : doc) (e : env) (s s' : S) :
  Oid.of_str id_ = Some o →
  find_one {["_id" := VOid o]} e s = (Ok None, s') →
  route_update_pet id_ pet e s = (Raise (HTTPException 404 (Some "Pet not found")), s').
Proof.
  intros Hid Hfind. unfold route_update_pet, _get_pet_or_404. run.
  rewrite !(validate_object_id_str _ o) by done. by rewrite Hfind.
Qed.

(** C4.  An identifier that parses but belongs to no stored document: the
    update route raises 404 and the collection is what it was, so no
    document, and no [last_modified], has been written. *)
Theorem update_unknown_id (docs : Mongo.collection) (id_ : string) (o : ObjectId)
    (pet : doc) (e : env) :
  Oid.of_str id_ = Some o →
  Forall (λ d, d !! "_id" ≠ Some (VOid o)) docs →
  route_update_pet id_ pet e docs =
    (Raise (HTTPException 404 (Some "Pet not found")), docs).
Proof.
  intros Hid Hnone. apply (route_update_pet_stops_at_lookup _ o); [done|].
  cbn. rewrite find_one_id. by rewrite (proj2 (list_find_None _ _) Hnone).
Qed.

Lemma update_unknown_id_witness :
  route_update_pet "5E0BE1000000000000000002" Sample.rex_adopted Sample.tuesday
      Sample.kennel =
    (Raise (HTTPException 404 (Some "Pet not found")), Sample.kennel).
Proof.
  apply (update_unknown_id Sample.kennel "5E0BE1000000000000000002" Sample.oid2).
  - reflexivity.
  - apply (bool_decide_unpack _). by vm_compute.
Defined.

(** ** Listing *)

Lemma mapM_fix_pet_id (l : list doc) :
  Forall (λ d, is_Some (Mongo.doc_oid d)) l →
  ∃ k, mapM fix_pet_id l = Ok k ∧ length k = length l.
Proof.
  induction 1 as [|d l [o Ho%doc_oid_Some] _ (k & Hk & Hlen)].
  - by exists [].
  - eexists (_ :: k). cbn. rewrite (fix_pet_id_truthy d (VOid o)) by done.
    cbn. rewrite Hk. cbn. by rewrite Hlen.
Qed.

Lemma run_cursor_Forall (P : doc → Prop) (c : Cursor) (docs : Mongo.collection) :
  Forall P docs → Forall P (Mongo.run_cursor c docs).
Proof.
  intros HP. unfold Mongo.run_cursor.
  assert (Forall P (filter (Mongo.matches (c_filter c)) docs)) as Hmatched.
  { apply Forall_forall. intros d [_ Hd]%list_elem_of_filter.
    by eapply Forall_forall in HP. }
  destruct (c_limit c =? 0); [|apply Forall_take]; apply Forall_drop;
    destruct (c_sort c) as [[key direction]|]; try done;
    by rewrite merge_sort_Permutation.
Qed.

(** C5.  On a collection whose documents carry their identifiers, the list
    handler returns; the page has at most [limit] documents ([limit] as
    normalised), and [count] is the number of documents the filter selects,
    whatever [skip] and [limit] are. *)
Theorem list_page_and_count {K St} `{!PyEnum K, !PyEnum St}
    (docs : Mongo.collection) (kind : option K) (status : option St)
    (limit skip : Z) (e : env) :
  Forall (λ d, is_Some (Mongo.doc_oid d)) docs →
  ∃ out,
    get_all_pets kind status limit skip e docs = (Ok out, docs) ∧
    Z.of_nat (length (pets out)) ≤ (if limit <=? 0 then 10 else limit) ∧
    count out =
      Z.of_nat (length (filter (Mongo.matches (filter_db kind status)) docs)).
Proof.
  intros Hids. unfold get_all_pets. run.
  set (skip' := if skip <? 0 then 0 else skip).
  set (limit' := if limit <=? 0 then 10 else limit).
  assert (0 ≤ skip') as Hskip by (subst skip'; destruct (Z.ltb_spec skip 0); lia).
  assert (0 < limit') as Hlimit by (subst limit'; destruct (Z.leb_spec limit 0); lia).
  unfold Cursor_skip. rewrite (proj2 (Z.ltb_ge skip' 0)) by done. cbn.
  unfold Mongo.count_documents, Mongo.to_list.
  match goal with |- context [mapM fix_pet_id ?l] =>
    destruct (mapM_fix_pet_id l) as (k & -> & Hlen) end.
  { by apply Forall_take, run_cursor_Forall. }
  eexists. split; [reflexivity|]. cbn. split; [|done].
  rewrite Hlen, length_take. lia.
Qed.

Lemma list_page_and_count_witness :
  ∃ out,
    get_all_pets (Some "dog") (@None string) 0 (-3) Sample.monday Sample.kennel
      = (Ok out, Sample.kennel) ∧
    Z.of_nat (length (pets out)) ≤ 10 ∧
    count out =
      Z.of_nat (length (filter (Mongo.matches (filter_db (Some "dog") (@None string)))
                          Sample.kennel)).
Proof.
  apply (list_page_and_count Sample.kennel (Some "dog") (@None string) 0 (-3)
           Sample.monday).
  apply (bool_decide_unpack _). by vm_compute.
Defined.

(** C6.  Whatever the store, its contents and the filter: a negative [skip]
    gives what [skip = 0] gives, and a [limit] that is not positive gives what
    [limit = 10] gives (the same result, the same state of the store). *)
Theorem list_normalises_skip_and_limit {S K St}
    `{!DocumentStore S, !PyEnum K, !PyEnum St}
    (kind : option K) (status : option St) (limit skip : Z) (e : env) (s : S) :
  (skip < 0 →
     get_all_pets kind status limit skip e s = get_all_pets kind status limit 0 e s) ∧
  (limit ≤ 0 →
     get_all_pets kind status limit skip e s = get_all_pets kind status 10 skip e s).
Proof.
  split; intros Hneg; unfold get_all_pets.
  - by rewrite (proj2 (Z.ltb_lt skip 0) Hneg).
  - by rewrite (proj2 (Z.leb_le limit 0) Hneg).
Qed.

Lemma list_normalises_skip_and_limit_witness :
  get_all_pets (@None string) (Some "available") 2 (-1) Sample.tuesday Sample.kennel
    = get_all_pets (@None string) (Some "available") 2 0 Sample.tuesday Sample.kennel ∧
  get_all_pets (@None string) (Some "available") (-4) 1 Sample.tuesday Sample.kennel
    = get_all_pets (@None string) (Some "available") 10 1 Sample.tuesday Sample.kennel.
Proof.
  split.
  - apply (proj1 (list_normalises_skip_and_limit (@None string) (Some "available")
                    2 (-1) Sample.tuesday Sample.kennel)). lia.
  - apply (proj2 (list_normalises_skip_and_limit (@None string) (Some "available")
                    (-4) 1 Sample.tuesday Sample.kennel)). lia.
Defined.

(** C7.  With enumeration members that are truthy, the filter has the key
    ["kind"] exactly when a kind was supplied, the key ["status"] exactly when
    a status was supplied, each with the member's value, and no other key. *)
Theorem filter_db_keys {K St} `{!PyEnum K, !PyEnum St}
    (kind : option K) (status : option St) :
  (∀ k, kind = Some k → enum_truthy k = true) →
  (∀ s, status = Some s → enum_truthy s = true) →
  filter_db kind status !! "kind" = enum_value (E:=K) <$> kind ∧
  filter_db kind status !! "status" = enum_value (E:=St) <$> status ∧
  dom (filter_db kind status) =
    (if kind is Some _ then {["kind"]} else ∅) ∪ (if status is Some _ then {["status"]} else ∅).
Proof.
  intros Hkind Hstatus. unfold filter_db.
  destruct kind as [k|], status as [s|]; cbn;
    rewrite ?(Hkind _ eq_refl), ?(Hstatus _ eq_refl); cbn.
  - split_and!; [by simplify_map_eq..|]. rewrite dom_insert_L, dom_singleton_L. done.
  - split_and!; [by simplify_map_eq..|]. rewrite dom_singleton_L. set_solver.
  - split_and!; [by simplify_map_eq..|]. rewrite dom_singleton_L. set_solver.
  - split_and!; [by simplify_map_eq..|]. rewrite dom_empty_L. set_solver.
Qed.

Lemma filter_db_keys_witness :
  filter_db (Some "dog") (Some "available") !! "kind" = Some (VStr "dog") ∧
  filter_db (Some "dog") (Some "available") !! "status" = Some (VStr "available") ∧
  dom (filter_db (Some "dog") (Some "available")) = {["kind"]} ∪ {["status"]}.
Proof.
  assert (∀ k : string, Some "dog" = Some k → enum_truthy k = true) as Hkind.
  { intros k [= <-]. reflexivity. }
  assert (∀ s : string, Some "available" = Some s → enum_truthy s = true) as Hstatus.
  { intros s [= <-]. reflexivity. }
  exact (filter_db_keys (Some "dog") (Some "available") Hkind Hstatus).
Defined.

(** ** Delete, then get *)

Lemma delete_one_id (docs : Mongo.collection) (o : ObjectId) (e : env) :
  Mongo.delete_one {["_id" := VOid o]} e docs =
    match list_find (λ d, d !! "_id" = Some (VOid o)) docs with
    | None => (Ok {| deleted_count := 0 |}, docs)
    | Some (i, _) => (Ok {| deleted_count := 1 |}, delete i docs)
    end.
Proof.
  unfold Mongo.delete_one.
  by rewrite (list_find_ext _ (λ d, d !! "_id" = Some (VOid o))) by apply matches_id.
Qed.

(** Once the document an identifier addresses is deleted from a well-formed
    collection, no document has that identifier. *)
Lemma wf_delete_gone (docs : Mongo.collection) (i : nat) (d : doc) (o : ObjectId) :
  Mongo.wf docs → docs !! i = Some d → Mongo.doc_oid d = Some o →
  Forall (λ d, d !! "_id" ≠ Some (VOid o)) (delete i docs).
Proof.
  intros [_ Hnodup] Hi Ho. apply Forall_lookup. intros j y Hj Hy%doc_oid_Some.
  assert (∀ j', docs !! j' = Some y → j' = i) as Hsame.
  { intros j' Hj'. eapply NoDup_lookup; [done|..]; rewrite list_lookup_fmap.
    - by rewrite Hj'; cbn; rewrite Hy.
    - by rewrite Hi; cbn; rewrite Ho. }
  destruct (decide (j < i)%nat) as [Hlt|Hge].
  - rewrite list_lookup_delete_lt in Hj by done. apply Hsame in Hj. lia.
  - rewrite list_lookup_delete_ge in Hj by lia. apply Hsame in Hj. lia.
Qed.

(** C8.  In a well-formed collection, for an identifier [id_] that parses:
    when a document has it, the delete route deletes that document and
    reports one deletion, and a get of [id_] afterwards raises 404; when no
    document has it, the delete route raises 404 from the lookup that
    precedes the deletion, and deletes nothing. *)
Theorem delete_then_get (docs : Mongo.collection) (id_ : string) (o : ObjectId)
    (e e' : env) :
  Mongo.wf docs → Oid.of_str id_ = Some o →
  (∀ i d, docs !! i = Some d → Mongo.doc_oid d = Some o →
     route_delete_pet_by_id id_ e docs =
       (Ok (Some {["status" := VStr "deleted count: 1"]}), delete i docs) ∧
     route_get_pet_by_id id_ e' (delete i docs) =
       (Raise (HTTPException 404 (Some "Pet not found")), delete i docs)) ∧
  (Forall (λ d, d !! "_id" ≠ Some (VOid o)) docs →
     route_delete_pet_by_id id_ e docs =
       (Raise (HTTPException 404 (Some "Pet not found")), docs)).
Proof.
  intros Hwf Hid. split.
  - intros i d Hi Ho.
    pose proof (wf_list_find _ _ _ _ Hwf Hi Ho) as Hfind. split.
    + unfold route_delete_pet_by_id. run.
      erewrite get_pet_or_404_found; [|by apply validate_object_id_str|done].
      unfold delete_pet_by_id. run.
      rewrite (ObjectId_new_str _ o) by done.
      by rewrite delete_one_id, Hfind.
    + unfold route_get_pet_by_id. run.
      rewrite (validate_object_id_str _ o) by done.
      apply get_pet_by_id_missing, list_find_None.
      by eapply wf_delete_gone.
  - intros Hnone. unfold route_delete_pet_by_id. run.
    erewrite get_pet_or_404_missing;
      [done|by apply validate_object_id_str|by apply list_find_None].
Qed.

Lemma delete_then_get_witness :
  (route_delete_pet_by_id "5e0be1000000000000000001" Sample.tuesday Sample.kennel =
     (Ok (Some {["status" := VStr "deleted count: 1"]}), []) ∧
   route_get_pet_by_id "5e0be1000000000000000001" Sample.tuesday [] =
     (Raise (HTTPException 404 (Some "Pet not found")), [])) ∧
  route_delete_pet_by_id "5e0be1000000000000000002" Sample.tuesday Sample.kennel =
    (Raise (HTTPException 404 (Some "Pet not found")), Sample.kennel).
Proof.
  assert (Mongo.wf Sample.kennel) as Hwf.
  { apply (bool_decide_unpack _). by vm_compute. }
  split.
  - apply (proj1 (delete_then_get Sample.kennel "5e0be1000000000000000001"
                    Sample.oid1 Sample.tuesday Sample.tuesday Hwf eq_refl)
             0%nat Sample.rex_stored); reflexivity.
  - apply (proj2 (delete_then_get Sample.kennel "5e0be1000000000000000002"
                    Sample.oid2 Sample.tuesday Sample.tuesday Hwf eq_refl)).
    apply (bool_decide_unpack _). by vm_compute.
Defined.

(** ** Timestamps along a sequence of requests *)

(** The lookups of the reference store leave the collection alone. *)
Lemma validate_object_id_state {S} `{!DocumentStore S} (v : value) (e : env) (s : S) :
  snd (validate_object_id v e s) = s.
Proof.
  unfold validate_object_id, ObjectId_new. run.
  destruct v as [| | |str|]; try done. by destruct (Oid.of_str str).
Qed.

Lemma get_pet_or_404_state (v : value) (e : env) (docs : Mongo.collection) :
  snd (_get_pet_or_404 v e docs) = docs.
Proof.
  unfold _get_pet_or_404. run.
  pose proof (validate_object_id_state v e docs) as Hv.
  destruct (validate_object_id v e docs) as [[o|x] docs']; cbn in Hv; subst; [|done].
  unfold Mongo.find_one. by destruct (found _).
Qed.

Lemma stamped_mono (t t' : string) (d : doc) :
  String.le t t' → stamped t d → stamped t' d.
Proof.
  intros Hle (c & m & Hc & Hm & Hcm & Hmt). exists c, m.
  split_and!; [done..|]. by etrans.
Qed.

Lemma stamped_created_before_modified (t : string) (d : doc) :
  stamped t d → created_before_modified d.
Proof. intros (c & m & ? & ? & ? & _). by exists c, m. Qed.

(** The collection after a handler is the collection after the one write it
    makes, if it gets that far. *)
Lemma add_pet_state (pet : doc) (e : env) (docs : Mongo.collection) :
  snd (add_pet pet e docs) =
  snd (Mongo.insert_one
         (<["created_at" := VStr (utcnow e)]> (<["last_modified" := VStr (utcnow e)]> pet))
         e docs).
Proof.
  unfold add_pet. run.
  destruct (Mongo.insert_one _ e docs) as [[pet_op|x] s]; [|done]. cbn.
  destruct (truthy (inserted_id pet_op)); [|done].
  pose proof (get_pet_or_404_state (inserted_id pet_op) e s) as Hs.
  destruct (_get_pet_or_404 _ e s) as [[got|x] s']; cbn in Hs; subst s'; [|done].
  by destruct (getitem got "_id").
Qed.

Lemma route_update_pet_state (id_ : string) (pet : doc) (e : env)
    (docs : Mongo.collection) :
  snd (route_update_pet id_ pet e docs) = docs ∨
  ∃ o, snd (route_update_pet id_ pet e docs) =
       snd (Mongo.update_one {["_id" := VOid o]}
              (Set_ (<["last_modified" := VStr (utcnow e)]> pet)) e docs).
Proof.
  unfold route_update_pet. run.
  pose proof (validate_object_id_state (VStr id_) e docs) as Hv.
  destruct (validate_object_id (VStr id_) e docs) as [[o|x] s]; cbn in Hv; subst s;
    [|by left].
  pose proof (get_pet_or_404_state (VStr id_) e docs) as Hg.
  destruct (_get_pet_or_404 (VStr id_) e docs) as [[got|x] s]; cbn in Hg; subst s;
    [|by left].
  unfold update_pet, ObjectId_new. run.
  destruct (Oid.of_str id_) as [o'|]; [|by left]. right. exists o'.
  destruct (Mongo.update_one _ _ e docs) as [[pet_op|x] s]; [|done]. cbn.
  destruct (negb (modified_count pet_op =? 0)); [|done].
  apply get_pet_or_404_state.
Qed.

Lemma route_delete_pet_by_id_state (id_ : string) (e : env) (docs : Mongo.collection) :
  snd (route_delete_pet_by_id id_ e docs) = docs ∨
  ∃ o, snd (route_delete_pet_by_id id_ e docs) =
       snd (Mongo.delete_one {["_id" := VOid o]} e docs).
Proof.
  unfold route_delete_pet_by_id. run.
  pose proof (get_pet_or_404_state (VStr id_) e docs) as Hg.
  destruct (_get_pet_or_404 (VStr id_) e docs) as [[got|x] s]; cbn in Hg; subst s;
    [|by left].
  unfold delete_pet_by_id, ObjectId_new. run.
  destruct (Oid.of_str id_) as [o'|]; [|by left]. right. exists o'.
  destruct (Mongo.delete_one _ e docs) as [[pet_op|x] s]; [|done]. cbn.
  by destruct (negb (deleted_count pet_op =? 0)).
Qed.

Lemma route_get_pet_by_id_state (id_ : string) (e : env) (docs : Mongo.collection) :
  snd (route_get_pet_by_id id_ e docs) = docs.
Proof.
  unfold route_get_pet_by_id. run.
  pose proof (validate_object_id_state (VStr id_) e docs) as Hv.
  destruct (validate_object_id (VStr id_) e docs) as [[o|x] s]; cbn in Hv; subst s;
    [|done].
  unfold get_pet_by_id. run. unfold Mongo.find_one.
  destruct (found _) as [pet|]; [|done]. by destruct (getitem pet "_id").
Qed.

(** What [insert_one], [update_one] and [delete_one] leave in the collection. *)
Lemma insert_one_state (document : doc) (e : env) (docs : Mongo.collection) :
  snd (Mongo.insert_one document e docs) = docs ∨
  ∃ _id, _id = default (VOid (fresh_oid e)) (document !! "_id") ∧
         Forall (λ d, d !! "_id" ≠ Some _id) docs ∧
         snd (Mongo.insert_one document e docs) = docs ++ [<["_id" := _id]> document].
Proof.
  unfold Mongo.insert_one.
  destruct (list_find _ docs) eqn:Hfind; [by left|]. right.
  eexists. split; [done|]. split; [|done]. by apply list_find_None in Hfind.
Qed.

Lemma update_one_state (filter fields : doc) (e : env) (docs : Mongo.collection) :
  snd (Mongo.update_one filter (Set_ fields) e docs) = docs ∨
  ∃ i old, docs !! i = Some old ∧ (fields ∪ old) !! "_id" = old !! "_id" ∧
           snd (Mongo.update_one filter (Set_ fields) e docs) = <[i := fields ∪ old]> docs.
Proof.
  unfold Mongo.update_one.
  destruct (list_find _ docs) as [[i old]|] eqn:Hfind; [|by left].
  apply list_find_Some in Hfind as (Hi & _ & _).
  destruct (decide (_ = _)); [|by left].
  destruct (decide (_ = old)); [by left|]. right. by exists i, old.
Qed.

Lemma delete_one_state (filter : doc) (e : env) (docs : Mongo.collection) :
  snd (Mongo.delete_one filter e docs) = docs ∨
  ∃ i, snd (Mongo.delete_one filter e docs) = delete i docs.
Proof.
  unfold Mongo.delete_one.
  destruct (list_find _ docs) as [[i old]|]; [|by left]. right. by exists i.
Qed.

(** What create stores is stamped with the instant of creation, twice. *)
Lemma add_pet_stamped (pet : doc) (e : env) (docs : Mongo.collection) :
  Forall (stamped (utcnow e)) docs →
  Forall (stamped (utcnow e)) (snd (add_pet pet e docs)).
Proof.
  intros Hdocs. rewrite add_pet_state.
  destruct (insert_one_state
              (<["created_at" := VStr (utcnow e)]> (<["last_modified" := VStr (utcnow e)]> pet))
              e docs) as [->|(_id & _ & _ & ->)]; [done|].
  apply Forall_app. split; [done|]. apply Forall_singleton.
  exists (utcnow e), (utcnow e). by simplify_map_eq.
Qed.

(** An update that leaves [created_at] out of its payload keeps it, and puts
    the current instant in [last_modified]. *)
Lemma update_stamped (id_ : string) (pet : doc) (e : env) (t : string)
    (docs : Mongo.collection) :
  pet !! "created_at" = None → String.le t (utcnow e) →
  Forall (stamped t) docs →
  Forall (stamped (utcnow e)) (snd (route_update_pet id_ pet e docs)).
Proof.
  intros Hpet Hle Hdocs.
  assert (Forall (stamped (utcnow e)) docs) as Hdocs'.
  { eapply Forall_impl; [done|]. intros d. by apply stamped_mono. }
  destruct (route_update_pet_state id_ pet e docs) as [->|[o ->]]; [done|].
  destruct (update_one_state {["_id" := VOid o]}
              (<["last_modified" := VStr (utcnow e)]> pet) e docs)
    as [->|(i & old & Hi & _ & ->)]; [done|].
  apply Forall_insert; [done|].
  eapply Forall_lookup_1 in Hdocs as (c & m & Hc & Hm & Hcm & Hmt); [|done].
  exists c, (utcnow e). split_and!.
  - rewrite lookup_union_r; [done|]. by rewrite lookup_insert_ne.
  - apply lookup_union_Some_l. by rewrite lookup_insert_eq.
  - by do 2 (etrans; [done|]).
  - done.
Qed.

Lemma delete_kept (P : doc → Prop) (id_ : string) (e : env) (docs : Mongo.collection) :
  Forall P docs → Forall P (snd (route_delete_pet_by_id id_ e docs)).
Proof.
  intros Hdocs.
  destruct (route_delete_pet_by_id_state id_ e docs) as [->|[o ->]]; [done|].
  destruct (delete_one_state {["_id" := VOid o]} e docs) as [->|[i ->]]; [done|].
  by apply Forall_delete.
Qed.

Lemma serve_stamped (e : env) (r : request) (t : string) (docs : Mongo.collection) :
  String.le t (utcnow e) →
  match r with Update _ pet => pet !! "created_at" = None | _ => True end →
  Forall (stamped t) docs →
  Forall (stamped (utcnow e)) (serve e r docs).
Proof.
  intros Hle Hr Hdocs.
  assert (Forall (stamped (utcnow e)) docs) as Hdocs'.
  { eapply Forall_impl; [done|]. intros d. by apply stamped_mono. }
  destruct r as [pet|id_ pet|id_|id_]; cbn.
  - by apply add_pet_stamped.
  - by eapply update_stamped.
  - by apply delete_kept.
  - by rewrite route_get_pet_by_id_state.
Qed.

Lemma serve_all_stamped (reqs : list (env * request)) (t0 : string)
    (docs : Mongo.collection) :
  clock_ascends t0 reqs → updates_ok reqs → Forall (stamped t0) docs →
  ∃ t, Forall (stamped t) (serve_all reqs docs).
Proof.
  revert t0 docs. induction reqs as [|[e r] reqs IH]; intros t0 docs Hclock Hupd Hdocs.
  - by exists t0.
  - destruct Hclock as [Hle Hclock]. apply Forall_cons in Hupd as [Hr Hupd].
    cbn. eapply IH; [done..|]. by eapply serve_stamped.
Qed.

(** C9.  The documents of a collection have [created_at <= last_modified]
    (and [last_modified] not after the instant [t0]); requests are then
    served, each at the instant its clock reading gives, the readings
    ascending from [t0], the update payloads without a [created_at].  After
    the whole sequence every document has [created_at <= last_modified]. *)
Theorem created_at_le_last_modified (reqs : list (env * request)) (t0 : string)
    (docs : Mongo.collection) :
  Forall (stamped t0) docs → clock_ascends t0 reqs → updates_ok reqs →
  Forall created_before_modified (serve_all reqs docs).
Proof.
  intros Hdocs Hclock Hupd.
  destruct (serve_all_stamped reqs t0 docs) as [t Ht]; [done..|].
  eapply Forall_impl; [done|]. intros d. apply stamped_created_before_modified.
Qed.

Lemma created_at_le_last_modified_witness :
  Forall created_before_modified
    (serve_all [(Sample.monday, Create Sample.rex);
                (Sample.tuesday, Update (Oid.to_str Sample.oid1) Sample.rex_adopted);
                (Sample.tuesday, Create Sample.rex)] []).
Proof.
  apply (created_at_le_last_modified _ "2020-01-01T00:00:00" []).
  - constructor.
  - by vm_compute.
  - repeat constructor.
Defined.

(** ** Well-formedness is an invariant of the routes *)

Lemma wf_snoc (docs : Mongo.collection) (d : doc) (o : ObjectId) :
  Mongo.wf docs → d !! "_id" = Some (VOid o) →
  Forall (λ d, d !! "_id" ≠ Some (VOid o)) docs →
  Mongo.wf (docs ++ [d]).
Proof.
  intros [Hids Hnodup] Hd%doc_oid_Some Hfresh. split.
  - apply Forall_app. split; [done|]. apply Forall_singleton. by rewrite Hd.
  - rewrite fmap_app. apply NoDup_app. split_and!; [done| |apply NoDup_singleton].
    intros x (d' & -> & Hd')%list_elem_of_fmap Hx%list_elem_of_singleton.
    rewrite Hd in Hx. apply doc_oid_Some in Hx.
    by eapply Forall_forall in Hfresh.
Qed.

Lemma wf_insert (docs : Mongo.collection) (i : nat) (old new : doc) :
  Mongo.wf docs → docs !! i = Some old → new !! "_id" = old !! "_id" →
  Mongo.wf (<[i := new]> docs).
Proof.
  intros [Hids Hnodup] Hi Hid.
  assert (Mongo.doc_oid new = Mongo.doc_oid old) as Hoid.
  { unfold Mongo.doc_oid. by rewrite Hid. }
  split.
  - apply Forall_insert; [done|]. rewrite Hoid. by eapply Forall_lookup_1 in Hids.
  - rewrite list_fmap_insert, Hoid, list_insert_id; [done|].
    by rewrite list_lookup_fmap, Hi.
Qed.

Lemma wf_delete (docs : Mongo.collection) (i : nat) :
  Mongo.wf docs → Mongo.wf (delete i docs).
Proof.
  intros [Hids Hnodup]. split; [by apply Forall_delete|].
  rewrite list_fmap_delete. eapply sublist_NoDup; [done|apply sublist_delete].
Qed.

(** A collection reached through the routes, from payloads that carry no
    [_id], stays well-formed. *)
Lemma serve_wf (e : env) (r : request) (docs : Mongo.collection) :
  match r with Create pet => pet !! "_id" = None | _ => True end →
  Mongo.wf docs → Mongo.wf (serve e r docs).
Proof.
  intros Hr Hwf. destruct r as [pet|id_ pet|id_|id_]; cbn.
  - rewrite add_pet_state.
    destruct (insert_one_state
                (<["created_at" := VStr (utcnow e)]> (<["last_modified" := VStr (utcnow e)]> pet))
                e docs) as [->|(_id & H_id & Hfresh & ->)]; [done|].
    rewrite !lookup_insert_ne, Hr in H_id by done. cbn in H_id. subst _id.
    eapply wf_snoc; [done|by rewrite lookup_insert_eq|done].
  - destruct (route_update_pet_state id_ pet e docs) as [->|[o ->]]; [done|].
    destruct (update_one_state {["_id" := VOid o]}
                (<["last_modified" := VStr (utcnow e)]> pet) e docs)
      as [->|(i & old & Hi & Hid & ->)]; [done|].
    by eapply wf_insert.
  - destruct (route_delete_pet_by_id_state id_ e docs) as [->|[o ->]]; [done|].
    destruct (delete_one_state {["_id" := VOid o]} e docs) as [->|[i ->]]; [done|].
    by apply wf_delete.
  - by rewrite route_get_pet_by_id_state.
Qed.

(** ** A pet's life, as the routes see it *)

Example rex_is_created :
  add_pet Sample.rex Sample.monday [] =
    (Ok (Some (<["id_" := VStr "5e0be1000000000000000001"]> Sample.rex_stored)),
     [Sample.rex_stored]).
Proof. reflexivity. Qed.

Example rex_is_adopted :
  let adopted :=
    <["last_modified" := VStr (utcnow Sample.tuesday)]>
      (<["status" := VStr "adopted"]> Sample.rex_stored) in
  route_update_pet "5e0be1000000000000000001" Sample.rex_adopted Sample.tuesday
      Sample.kennel =
    (Ok (<["id_" := VStr "5e0be1000000000000000001"]> adopted), [adopted]) ∧
  adopted !! "created_at" = Some (VStr "2020-01-06T09:30:00.000250") ∧
  adopted !! "last_modified" = Some (VStr "2020-01-07T18:05:12.431907").
Proof. split_and!; by vm_compute. Qed.

Example rex_is_deleted :
  route_delete_pet_by_id "5e0be1000000000000000001" Sample.tuesday Sample.kennel =
    (Ok (Some {["status" := VStr "deleted count: 1"]}), []).
Proof. reflexivity. Qed.

Example malformed_id_is_refused :
  route_get_pet_by_id "rex" Sample.tuesday Sample.kennel =
    (Raise (HTTPException 400 None), Sample.kennel).
Proof. reflexivity. Qed.

(** * Further properties of the routes *)

(** ** Identifiers that do not parse *)

(** [validate_object_id] turns every failure of [ObjectId(...)] into HTTP 400:
    it returns an identifier or raises exactly that, and never touches the
    store. *)
Theorem validate_object_id_ok_or_400 {S} `{!DocumentStore S} (id_ : value)
    (e : env) (s : S) :
  (∃ o, validate_object_id id_ e s = (Ok o, s)) ∨
  validate_object_id id_ e s = (Raise (HTTPException 400 None), s).
Proof.
  unfold validate_object_id, ObjectId_new. run.
  destruct id_ as [| | |str|o]; eauto.
  destruct (Oid.of_str str); eauto.
Qed.



(** ** Get *)

(** What [_get_pet_or_404] does on the reference store, by the outcome of the
    lookup. *)
Lemma get_pet_or_404_cases (id_ : string) (e : env) (docs : Mongo.collection) :
  (Oid.of_str id_ = None ∧
   _get_pet_or_404 (VStr id_) e docs = (Raise (HTTPException 400 None), docs)) ∨
  (∃ o, Oid.of_str id_ = Some o ∧
        list_find (λ d, d !! "_id" = Some (VOid o)) docs = None ∧
        _get_pet_or_404 (VStr id_) e docs =
          (Raise (HTTPException 404 (Some "Pet not found")), docs)) ∨
  (∃ o i d, Oid.of_str id_ = Some o ∧
            list_find (λ d, d !! "_id" = Some (VOid o)) docs = Some (i, d) ∧
            _get_pet_or_404 (VStr id_) e docs =
              (Ok (<["id_" := VStr (Oid.to_str o)]> d), docs)).
Proof.
  destruct (Oid.of_str id_) as [o|] eqn:Hid.
  - right.
    destruct (list_find (λ d, d !! "_id" = Some (VOid o)) docs) as [[i d]|] eqn:Hfind.
    + right. exists o, i, d. split_and!; [done..|].
      by apply (get_pet_or_404_found _ _ o i); [apply validate_object_id_str|].
    + left. exists o. split_and!; [done..|].
      by apply (get_pet_or_404_missing _ _ o); [apply validate_object_id_str|].
  - left. split; [done|]. unfold _get_pet_or_404. run.
    by rewrite validate_object_id_invalid.
Qed.

(** The GET route and the lookup helper [_get_pet_or_404] are two copies of
    one lookup: on the reference store they answer alike for every path
    parameter.  So the GET route reads and never writes, and its answer is
    400, 404 or the stored document with [id_] set. *)
Theorem get_agrees_with_get_pet_or_404 (id_ : string) (e : env)
    (docs : Mongo.collection) :
  route_get_pet_by_id id_ e docs = _get_pet_or_404 (VStr id_) e docs ∧
  snd (route_get_pet_by_id id_ e docs) = docs.
Proof.
  split; [|apply route_get_pet_by_id_state].
  destruct (get_pet_or_404_cases id_ e docs)
    as [[Hid ->]|[(o & Hid & Hfind & ->)|(o & i & d & Hid & Hfind & ->)]];
    unfold route_get_pet_by_id; run.
  - by rewrite validate_object_id_invalid.
  - rewrite (validate_object_id_str _ o) by done. by apply get_pet_by_id_missing.
  - rewrite (validate_object_id_str _ o) by done.
    by apply (get_pet_by_id_found _ _ i).
Qed.

(** The GET route returns the stored document itself, with [id_] set to the
    lower-case string form of its identifier, however the path parameter
    spells the hex digits. *)
Theorem get_returns_stored (docs : Mongo.collection) (i : nat) (d : doc)
    (id_ : string) (o : ObjectId) (e : env) :
  Mongo.wf docs → docs !! i = Some d → Mongo.doc_oid d = Some o →
  Oid.of_str id_ = Some o →
  route_get_pet_by_id id_ e docs = (Ok (<["id_" := VStr (Oid.to_str o)]> d), docs).
Proof.
  intros Hwf Hi Ho Hid. unfold route_get_pet_by_id. run.
  rewrite (validate_object_id_str _ o) by done.
  apply (get_pet_by_id_found _ _ i). by apply wf_list_find.
Qed.

Lemma get_returns_stored_witness :
  route_get_pet_by_id "5E0BE1000000000000000001" Sample.tuesday Sample.kennel =
    (Ok (<["id_" := VStr "5e0be1000000000000000001"]> Sample.rex_stored), Sample.kennel).
Proof.
  apply (get_returns_stored Sample.kennel 0 Sample.rex_stored
           "5E0BE1000000000000000001" Sample.oid1 Sample.tuesday).
  - apply (bool_decide_unpack _). by vm_compute.
  - reflexivity.
  - reflexivity.
  - reflexivity.
Defined.

(** ** Update *)

(** The PUT route on a stored document, when the clock has moved since the
    document was last stamped: the payload is merged into the document (the
    fields it lists take its values, the fields it does not list keep
    theirs), [last_modified] becomes the current instant, the merged
    document is returned with [id_] set, and it replaces the old one in
    place, every other document staying where and what it was. *)
Theorem update_merges_payload (docs : Mongo.collection) (i : nat)
    (stored pet : doc) (id_ : string) (o : ObjectId) (e : env) :
  Mongo.wf docs → docs !! i = Some stored → Mongo.doc_oid stored = Some o →
  Oid.of_str id_ = Some o → pet !! "_id" = None →
  stored !! "last_modified" ≠ Some (VStr (utcnow e)) →
  ∃ merged,
    route_update_pet id_ pet e docs =
      (Ok (<["id_" := VStr (Oid.to_str o)]> merged), <[i := merged]> docs) ∧
    merged !! "last_modified" = Some (VStr (utcnow e)) ∧
    (∀ k, k ≠ "last_modified" → is_Some (pet !! k) → merged !! k = pet !! k) ∧
    (∀ k, k ≠ "last_modified" → pet !! k = None → merged !! k = stored !! k) ∧
    (∀ j, j ≠ i → <[i := merged]> docs !! j = docs !! j).
Proof.
  intros Hwf Hi Ho Hid Hpet Hclock.
  pose proof (wf_list_find _ _ _ _ Hwf Hi Ho) as Hfind.
  set (merged := <["last_modified" := VStr (utcnow e)]> pet ∪ stored).
  assert (merged !! "last_modified" = Some (VStr (utcnow e))) as Hlm.
  { apply lookup_union_Some_l. by rewrite lookup_insert_eq. }
  assert (merged !! "_id" = stored !! "_id") as Hsame.
  { unfold merged. rewrite lookup_union_r; [done|]. by rewrite lookup_insert_ne. }
  exists merged. split_and!; [|done|..].
  - unfold route_update_pet. run.
    rewrite (validate_object_id_str _ o) by done.
    rewrite (get_pet_or_404_found _ _ o i stored); [|by apply validate_object_id_str|done].
    unfold update_pet. run.
    rewrite (ObjectId_new_str _ o) by done.
    rewrite (update_one_set _ _ i stored) by done. fold merged.
    rewrite decide_False by (intros Heq; by rewrite Heq in Hlm).
    cbn. apply (get_pet_or_404_found _ _ o i); [by apply validate_object_id_str|].
    eapply list_find_id_insert; [done|]. rewrite Hsame. by apply doc_oid_Some.
  - intros k Hk [v Hv]. rewrite Hv. apply lookup_union_Some_l.
    by rewrite lookup_insert_ne.
  - intros k Hk Hnone. unfold merged. rewrite lookup_union_r; [done|].
    by rewrite lookup_insert_ne.
  - intros j Hj. by rewrite list_lookup_insert_ne.
Qed.

Lemma update_merges_payload_witness :
  ∃ merged,
    route_update_pet "5e0be1000000000000000001" Sample.rex_adopted Sample.tuesday
        Sample.kennel =
      (Ok (<["id_" := VStr "5e0be1000000000000000001"]> merged), [merged]) ∧
    merged !! "last_modified" = Some (VStr "2020-01-07T18:05:12.431907") ∧
    (∀ k, k ≠ "last_modified" → is_Some (Sample.rex_adopted !! k) →
          merged !! k = Sample.rex_adopted !! k) ∧
    (∀ k, k ≠ "last_modified" → Sample.rex_adopted !! k = None →
          merged !! k = Sample.rex_stored !! k) ∧
    (∀ j, j ≠ 0%nat → <[0%nat := merged]> Sample.kennel !! j = Sample.kennel !! j).
Proof.
  apply (update_merges_payload Sample.kennel 0 Sample.rex_stored Sample.rex_adopted
           "5e0be1000000000000000001" Sample.oid1 Sample.tuesday).
  - apply (bool_decide_unpack _). by vm_compute.
  - reflexivity.
  - reflexivity.
  - reflexivity.
  - reflexivity.
  - by vm_compute.
Defined.

(** Whatever the path parameter and the payload, the PUT route neither adds
    nor removes a document, keeps the [_id] of every document, and keeps, in
    every document, each field that the payload does not list (other than
    [last_modified]). *)
Theorem update_keeps_the_rest (id_ : string) (pet : doc) (e : env)
    (docs : Mongo.collection) (k : string) :
  k = "_id" ∨ (pet !! k = None ∧ k ≠ "last_modified") →
  length (snd (route_update_pet id_ pet e docs)) = length docs ∧
  (λ d : doc, d !! k) <$> snd (route_update_pet id_ pet e docs) = (λ d : doc, d !! k) <$> docs.
Proof.
  intros Hk.
  destruct (route_update_pet_state id_ pet e docs) as [->|[o ->]]; [done|].
  destruct (update_one_state {["_id" := VOid o]}
              (<["last_modified" := VStr (utcnow e)]> pet) e docs)
    as [->|(i & old & Hi & Hid & ->)]; [done|].
  split; [by rewrite length_insert|].
  rewrite list_fmap_insert. apply list_insert_id.
  rewrite list_lookup_fmap, Hi. cbn. f_equal.
  destruct Hk as [->|[Hnone Hk]]; [done|].
  rewrite lookup_union_r; [done|]. by rewrite lookup_insert_ne.
Qed.

Lemma update_keeps_the_rest_witness :
  length (snd (route_update_pet "5e0be1000000000000000001" Sample.rex_adopted
                 Sample.tuesday Sample.kennel)) = length Sample.kennel ∧
  (λ d : doc, d !! "created_at") <$>
      snd (route_update_pet "5e0be1000000000000000001" Sample.rex_adopted
             Sample.tuesday Sample.kennel)
    = (λ d : doc, d !! "created_at") <$> Sample.kennel.
Proof.
  apply (update_keeps_the_rest "5e0be1000000000000000001" Sample.rex_adopted
           Sample.tuesday Sample.kennel "created_at").
  right. split; [reflexivity|discriminate].
Defined.

(** The PUT route is all or nothing: whenever it raises (400, 404, 304, or
    the store's refusal to change an [_id]) the collection is what it was. *)
Theorem failed_update_writes_nothing (id_ : string) (pet : doc) (e : env)
    (docs : Mongo.collection) (x : exn) :
  fst (route_update_pet id_ pet e docs) = Raise x →
  snd (route_update_pet id_ pet e docs) = docs.
Proof.
  unfold route_update_pet. run.
  destruct (get_pet_or_404_cases id_ e docs)
    as [[Hid Hget]|[(o & Hid & Hfind & Hget)|(o & i & d & Hid & Hfind & Hget)]].
  - by rewrite validate_object_id_invalid.
  - rewrite (validate_object_id_str _ o) by done. by rewrite Hget.
  - rewrite (validate_object_id_str _ o) by done. rewrite Hget.
    unfold update_pet. run. rewrite (ObjectId_new_str _ o) by done.
    unfold Mongo.update_one.
    rewrite (list_find_ext _ (λ d, d !! "_id" = Some (VOid o))) by apply matches_id.
    rewrite Hfind.
    destruct (decide (_ = _)) as [Hsame|]; [|done].
    destruct (decide (_ = d)); [done|]. cbn.
    rewrite (get_pet_or_404_found _ _ o i (<["last_modified" := VStr (utcnow e)]> pet ∪ d));
      [done|by apply validate_object_id_str|].
    eapply list_find_id_insert; [done|]. rewrite Hsame.
    by apply list_find_Some in Hfind as (_ & ? & _).
Qed.

Lemma failed_update_writes_nothing_witness :
  snd (route_update_pet "5e0be1000000000000000001" Sample.rex Sample.monday
         Sample.kennel) = Sample.kennel.
Proof.
  apply (failed_update_writes_nothing "5e0be1000000000000000001" Sample.rex
           Sample.monday Sample.kennel (HTTPException 304 None)).
  reflexivity.
Defined.

(** ** Delete *)

Local Arguments get_pet_by_id : simpl never.

(** The DELETE route has three outcomes on the reference store: 400 or 404
    with the collection untouched, or the report of exactly one deletion,
    with exactly the first document of that identifier gone.  It never
    returns without a report and never reports another count. *)
Theorem delete_outcomes (id_ : string) (e : env) (docs : Mongo.collection) :
  route_delete_pet_by_id id_ e docs = (Raise (HTTPException 400 None), docs) ∨
  route_delete_pet_by_id id_ e docs =
    (Raise (HTTPException 404 (Some "Pet not found")), docs) ∨
  ∃ o i d, Oid.of_str id_ = Some o ∧ docs !! i = Some d ∧
           d !! "_id" = Some (VOid o) ∧
           route_delete_pet_by_id id_ e docs =
             (Ok (Some {["status" := VStr "deleted count: 1"]}), delete i docs).
Proof.
  unfold route_delete_pet_by_id. run.
  destruct (get_pet_or_404_cases id_ e docs)
    as [[Hid ->]|[(o & Hid & Hfind & ->)|(o & i & d & Hid & Hfind & ->)]];
    [by left|by right; left|].
  right; right. exists o, i, d.
  pose proof Hfind as (Hi & Hd & _)%list_find_Some. split_and!; [done..|].
  unfold delete_pet_by_id. run. rewrite (ObjectId_new_str _ o) by done.
  by rewrite delete_one_id, Hfind.
Qed.

(** Deleting one pet leaves every other pet as it was: the GET of another
    identifier answers after the deletion what it answered before. *)
Theorem delete_leaves_others (docs : Mongo.collection) (id_ other : string)
    (o o' : ObjectId) (e e' : env) :
  Mongo.wf docs → Oid.of_str id_ = Some o → Oid.of_str other = Some o' → o ≠ o' →
  fst (route_get_pet_by_id other e' (snd (route_delete_pet_by_id id_ e docs))) =
  fst (route_get_pet_by_id other e' docs).
Proof.
  intros Hwf Hid Hother Hne.
  assert (snd (route_delete_pet_by_id id_ e docs) = docs ∨
          ∃ i d, list_find (λ d, d !! "_id" = Some (VOid o)) docs = Some (i, d) ∧
                 snd (route_delete_pet_by_id id_ e docs) = delete i docs)
    as [->|(i & d & Hfind & ->)]; [|done|].
  { unfold route_delete_pet_by_id. run.
    destruct (get_pet_or_404_cases id_ e docs)
      as [[? ->]|[(o1 & ? & ? & ->)|(o1 & i & d & ? & Hfind & ->)]];
      [by left..|].
    right. exists i, d. simplify_eq. split; [done|].
    unfold delete_pet_by_id. run. rewrite (ObjectId_new_str _ o) by done.
    by rewrite delete_one_id, Hfind. }
  apply list_find_Some in Hfind as (Hi & Hd & _).
  unfold route_get_pet_by_id. run.
  rewrite !(validate_object_id_str _ o') by done.
  destruct (list_find (λ d, d !! "_id" = Some (VOid o')) docs) as [[j d']|] eqn:Hfind'.
  - apply list_find_Some in Hfind' as (Hj & Hd' & _).
    assert (j ≠ i) by (intros ->; congruence).
    rewrite (get_pet_by_id_found docs o' j d')
      by (apply wf_list_find; [done..|by apply doc_oid_Some]).
    assert (∃ j', delete i docs !! j' = Some d') as [j' Hj'].
    { destruct (decide (j < i)%nat).
      - exists j. by rewrite list_lookup_delete_lt.
      - exists (pred j). rewrite list_lookup_delete_ge by lia.
        by replace (Datatypes.S (pred j)) with j by lia. }
    by rewrite (get_pet_by_id_found (delete i docs) o' j' d')
      by (apply wf_list_find; [by apply wf_delete|done|by apply doc_oid_Some]).
  - rewrite (get_pet_by_id_missing docs) by done.
    rewrite get_pet_by_id_missing; [done|].
    apply list_find_None, Forall_delete. by apply list_find_None in Hfind'.
Qed.

(** ** Listing *)

(** The listing, step by step, whatever the store: one count and one cursor,
    both with the filter of lines 67-73; [skip] never reaches the cursor
    negative, so [Cursor_skip] does not raise. *)
Lemma get_all_pets_steps {S K St} `{!DocumentStore S, !PyEnum K, !PyEnum St}
    (kind : option K) (status : option St) (limit skip : Z) (e : env) (s : S) :
  get_all_pets kind status limit skip e s =
  (pets_count ← count_documents (filter_db kind status);
   pets ← to_list (pets_cursor (filter_db kind status) limit skip) (clamp_limit limit);
   pets_list ← lift (mapM fix_pet_id pets);
   mret {| pets := pets_list; count := pets_count |}) e s.
Proof.
  unfold get_all_pets, Cursor_skip, pets_cursor, clamp_skip, clamp_limit. run.
  destruct (Z.ltb_spec skip 0) as [Hneg|Hpos]; [done|].
  by rewrite (proj2 (Z.ltb_ge skip 0) Hpos).
Qed.

Lemma mapM_fix_pet_id_with_id_ (l : list doc) :
  Forall (λ d, truthy (default (VBool false) (d !! "_id")) = true) l →
  mapM fix_pet_id l = Ok (with_id_ <$> l).
Proof.
  induction 1 as [|d l Hd _ IH]; [done|]. cbn.
  destruct (d !! "_id") as [v|] eqn:Hid; [|done].
  rewrite (fix_pet_id_truthy d v) by done. cbn. rewrite IH. cbn.
  unfold with_id_. by rewrite Hid.
Qed.

(** The first document without a truthy [_id] stops [map(fix_pet_id, pets)]. *)
Lemma mapM_fix_pet_id_stops (good rest : list doc) (bad : doc) :
  Forall (λ d, truthy (default (VBool false) (d !! "_id")) = true) good →
  truthy (default (VBool false) (bad !! "_id")) = false →
  mapM fix_pet_id (good ++ bad :: rest) =
    Raise (ValueError "No `_id` found! Unable to fix pet ID for pet: " (Some bad)).
Proof.
  intros Hgood Hbad. induction Hgood as [|d l Hd _ IH]; cbn.
  - by rewrite fix_pet_id_falsy.
  - destruct (d !! "_id") as [v|] eqn:Hid; [|done].
    rewrite (fix_pet_id_truthy d v) by done. cbn. by rewrite IH.
Qed.

Lemma oid_is_truthy (docs : list doc) :
  Forall (λ d, is_Some (Mongo.doc_oid d)) docs →
  Forall (λ d, truthy (default (VBool false) (d !! "_id")) = true) docs.
Proof.
  intros Hids. eapply Forall_impl; [done|].
  intros d [o Ho%doc_oid_Some]. by rewrite Ho.
Qed.

Lemma selected_Forall (P : doc → Prop) (flt : doc) (docs : Mongo.collection) :
  Forall P docs → Forall P (selected flt docs).
Proof.
  intros HP. unfold selected. rewrite merge_sort_Permutation.
  apply Forall_forall. intros d [_ Hd]%list_elem_of_filter.
  by eapply Forall_forall in HP.
Qed.

(** The listing on the reference store, in full: the page is cut out of the
    selected documents, newest first, and each pet on it gets its [id_]. *)
Lemma get_all_pets_reference {K St} `{!PyEnum K, !PyEnum St}
    (docs : Mongo.collection) (kind : option K) (status : option St)
    (limit skip : Z) (e : env) :
  Forall (λ d, is_Some (Mongo.doc_oid d)) docs →
  get_all_pets kind status limit skip e docs =
    (Ok {| pets := with_id_ <$>
                     take (Z.to_nat (clamp_limit limit))
                       (drop (Z.to_nat (clamp_skip skip))
                          (selected (filter_db kind status) docs));
           count := Z.of_nat (length (filter (Mongo.matches (filter_db kind status)) docs)) |},
     docs).
Proof.
  intros Hids. rewrite get_all_pets_steps. run.
  unfold Mongo.count_documents, Mongo.to_list, Mongo.run_cursor, pets_cursor.
  cbn [c_filter c_skip c_limit c_sort].
  assert (0 < clamp_limit limit) as Hlimit
    by (unfold clamp_limit; destruct (Z.leb_spec limit 0); lia).
  rewrite (proj2 (Z.eqb_neq (clamp_limit limit) 0)) by lia.
  rewrite Z.abs_eq by lia. rewrite take_take, Nat.min_id.
  fold (selected (filter_db kind status) docs).
  rewrite mapM_fix_pet_id_with_id_; [done|].
  by apply Forall_take, Forall_drop, oid_is_truthy, selected_Forall.
Qed.

(** The page holds exactly what is left of the selection after [skip], up to
    [limit] documents ([skip] and [limit] as clamped): skipping past the last
    match gives an empty page, with [count] still the whole selection. *)
Theorem list_page_size {K St} `{!PyEnum K, !PyEnum St}
    (docs : Mongo.collection) (kind : option K) (status : option St)
    (limit skip : Z) (e : env) :
  Forall (λ d, is_Some (Mongo.doc_oid d)) docs →
  ∃ out,
    get_all_pets kind status limit skip e docs = (Ok out, docs) ∧
    Z.of_nat (length (pets out)) =
      Z.min (clamp_limit limit) (Z.max 0 (count out - clamp_skip skip)).
Proof.
  intros Hids. eexists. split; [by apply get_all_pets_reference|]. cbn.
  rewrite length_fmap, length_take, length_drop. unfold selected.
  rewrite merge_sort_Permutation.
  assert (0 < clamp_limit limit)
    by (unfold clamp_limit; destruct (Z.leb_spec limit 0); lia).
  assert (0 ≤ clamp_skip skip)
    by (unfold clamp_skip; destruct (Z.ltb_spec skip 0); lia).
  lia.
Qed.

Lemma list_page_size_witness :
  ∃ out,
    get_all_pets (@None string) (@None string) 5 7 Sample.tuesday Shelter.two_pets
      = (Ok out, Shelter.two_pets) ∧
    Z.of_nat (length (pets out)) = Z.min 5 (Z.max 0 (count out - 7)).
Proof.
  apply (list_page_size Shelter.two_pets (@None string) (@None string) 5 7
           Sample.tuesday).
  apply (bool_decide_unpack _). by vm_compute.
Defined.

(** Every pet on the page is a stored document that the filter selects, with
    its [id_] set and nothing else changed. *)
Theorem list_pets_are_selected {K St} `{!PyEnum K, !PyEnum St}
    (docs : Mongo.collection) (kind : option K) (status : option St)
    (limit skip : Z) (e : env) :
  Forall (λ d, is_Some (Mongo.doc_oid d)) docs →
  ∃ out,
    get_all_pets kind status limit skip e docs = (Ok out, docs) ∧
    Forall (λ pet, ∃ d o, d ∈ docs ∧ Mongo.matches (filter_db kind status) d ∧
                          d !! "_id" = Some (VOid o) ∧
                          pet = <["id_" := VStr (Oid.to_str o)]> d) (pets out).
Proof.
  intros Hids. eexists. split; [by apply get_all_pets_reference|]. cbn.
  apply Forall_fmap, Forall_take, Forall_drop. unfold selected.
  rewrite merge_sort_Permutation. apply Forall_forall.
  intros d [Hmatch Hd]%list_elem_of_filter.
  eapply Forall_forall in Hids as [o Ho%doc_oid_Some]; [|done].
  exists d, o. split_and!; [done..|]. cbn. unfold with_id_. by rewrite Ho.
Qed.

Lemma list_pets_are_selected_witness :
  ∃ out,
    get_all_pets (Some "cat") (@None string) 10 0 Sample.tuesday Shelter.two_pets
      = (Ok out, Shelter.two_pets) ∧
    Forall (λ pet, ∃ d o, d ∈ Shelter.two_pets ∧
                          Mongo.matches (filter_db (Some "cat") (@None string)) d ∧
                          d !! "_id" = Some (VOid o) ∧
                          pet = <["id_" := VStr (Oid.to_str o)]> d) (pets out).
Proof.
  apply (list_pets_are_selected Shelter.two_pets (Some "cat") (@None string) 10 0
           Sample.tuesday).
  apply (bool_decide_unpack _). by vm_compute.
Defined.



(** *** Newest first *)

Lemma bson_compare_antisym (a b : value) :
  Mongo.bson_compare b a = CompOpp (Mongo.bson_compare a b).
Proof.
  destruct a as [|x|x|x|x], b as [|y|y|y|y]; cbn; try done.
  - by destruct x, y.
  - apply Z.compare_antisym.
  - by rewrite (String.compare_antisym x y), CompOpp_involutive.
  - apply N.compare_antisym.
Qed.

Lemma sort_before_total (key : string) (direction : Z) :
  Total (Mongo.sort_before key direction).
Proof.
  intros a b. unfold Mongo.sort_before.
  rewrite (bson_compare_antisym (default VNone (a !! key)) (default VNone (b !! key))).
  destruct (direction <? 0), (Mongo.bson_compare _ _); cbn; auto.
Qed.

Lemma Sorted_drop {A} (R : relation A) (l : list A) (n : nat) :
  Sorted R l → Sorted R (drop n l).
Proof.
  revert l. induction n as [|n IH]; intros l Hl; [done|].
  destruct l as [|x l]; [done|]. cbn. apply IH. by inversion Hl.
Qed.

Lemma Sorted_take {A} (R : relation A) (l : list A) (n : nat) :
  Sorted R l → Sorted R (take n l).
Proof.
  revert l. induction n as [|n IH]; intros l Hl; [constructor|].
  destruct l as [|x l]; [constructor|]. cbn.
  inversion Hl as [|?? Hsorted Hhd]; subst. constructor; [by apply IH|].
  destruct n; [constructor|]. destruct Hhd; constructor. done.
Qed.

(** The pets on the page come newest first: each [created_at] is at least the
    next one's, in the order MongoDB compares values. *)
Theorem list_newest_first {K St} `{!PyEnum K, !PyEnum St}
    (docs : Mongo.collection) (kind : option K) (status : option St)
    (limit skip : Z) (e : env) :
  Forall (λ d, is_Some (Mongo.doc_oid d)) docs →
  ∃ out,
    get_all_pets kind status limit skip e docs = (Ok out, docs) ∧
    Sorted (λ pet next,
              Mongo.bson_compare (default VNone (pet !! "created_at"))
                (default VNone (next !! "created_at")) ≠ Lt) (pets out).
Proof.
  intros Hids. eexists. split; [by apply get_all_pets_reference|]. cbn.
  apply (Sorted_fmap with_id_ (Mongo.sort_before "created_at" (-1))).
  - intros d d'. unfold Mongo.sort_before, with_id_. cbn.
    by rewrite !lookup_insert_ne.
  - apply Sorted_take, Sorted_drop. unfold selected. apply Sorted_merge_sort, sort_before_total.
Qed.

Lemma list_newest_first_witness :
  ∃ out,
    get_all_pets (@None string) (@None string) 10 0 Sample.tuesday Shelter.two_pets
      = (Ok out, Shelter.two_pets) ∧
    Sorted (λ pet next,
              Mongo.bson_compare (default VNone (pet !! "created_at"))
                (default VNone (next !! "created_at")) ≠ Lt) (pets out).
Proof.
  apply (list_newest_first Shelter.two_pets (@None string) (@None string) 10 0
           Sample.tuesday).
  apply (bool_decide_unpack _). by vm_compute.
Defined.

Example tom_is_listed_before_rex :
  fst (get_all_pets (@None string) (@None string) 10 0 Sample.tuesday Shelter.two_pets)
    = Ok {| pets := [with_id_ Shelter.tom_stored; with_id_ Sample.rex_stored];
            count := 2 |}.
Proof. by vm_compute. Qed.

(** No pet is listed twice: in a well-formed collection the pets of a page
    have distinct identifiers. *)
Theorem list_has_no_duplicates {K St} `{!PyEnum K, !PyEnum St}
    (docs : Mongo.collection) (kind : option K) (status : option St)
    (limit skip : Z) (e : env) :
  Mongo.wf docs →
  ∃ out,
    get_all_pets kind status limit skip e docs = (Ok out, docs) ∧
    NoDup ((λ pet : doc, pet !! "_id") <$> pets out).
Proof.
  intros [Hids Hnodup]. eexists. split; [by apply get_all_pets_reference|]. cbn.
  rewrite <-list_fmap_compose.
  rewrite (list_fmap_ext _ (λ d : doc, d !! "_id"));
    [|intros i d _; unfold compose, with_id_; by rewrite lookup_insert_ne].
  assert (NoDup ((λ d : doc, d !! "_id") <$> docs)) as Hraw.
  { apply (NoDup_fmap_1 (λ v, match v with Some (VOid o) => Some o | _ => None end)).
    by rewrite <-list_fmap_compose. }
  eapply sublist_NoDup; [|apply fmap_sublist, sublist_take].
  eapply sublist_NoDup; [|apply fmap_sublist, sublist_drop].
  unfold selected. rewrite merge_sort_Permutation.
  eapply sublist_NoDup; [done|]. apply fmap_sublist, sublist_filter.
Qed.

Lemma list_has_no_duplicates_witness :
  ∃ out,
    get_all_pets (@None string) (Some "pending") 10 0 Sample.tuesday Shelter.two_pets
      = (Ok out, Shelter.two_pets) ∧
    NoDup ((λ pet : doc, pet !! "_id") <$> pets out).
Proof.
  apply (list_has_no_duplicates Shelter.two_pets (@None string) (Some "pending")
           10 0 Sample.tuesday).
  apply (bool_decide_unpack _). by vm_compute.
Defined.

(** One document without a truthy [_id] on the page fails the whole listing:
    whatever the store, when the page it hands over has such a document, the
    listing raises the [ValueError] of [fix_pet_id] for the first of them and
    returns no pet at all. *)
Theorem list_fails_on_falsy_id {S K St} `{!DocumentStore S, !PyEnum K, !PyEnum St}
    (kind : option K) (status : option St) (limit skip : Z) (e : env)
    (s s1 s2 : S) (n : Z) (good rest : list doc) (bad : doc) :
  count_documents (filter_db kind status) e s = (Ok n, s1) →
  to_list (pets_cursor (filter_db kind status) limit skip) (clamp_limit limit) e s1
    = (Ok (good ++ bad :: rest), s2) →
  Forall (λ d, truthy (default (VBool false) (d !! "_id")) = true) good →
  truthy (default (VBool false) (bad !! "_id")) = false →
  get_all_pets kind status limit skip e s =
    (Raise (ValueError "No `_id` found! Unable to fix pet ID for pet: " (Some bad)), s2).
Proof.
  intros Hcount Hpage Hgood Hbad. rewrite get_all_pets_steps. run.
  rewrite Hcount, Hpage. by rewrite mapM_fix_pet_id_stops.
Qed.

Lemma list_fails_on_falsy_id_witness :
  get_all_pets (@None string) (@None string) 10 0 Sample.tuesday
      [Sample.rex_stored; Shelter.zero_id] =
    (Raise (ValueError "No `_id` found! Unable to fix pet ID for pet: "
              (Some Shelter.zero_id)),
     [Sample.rex_stored; Shelter.zero_id]).
Proof.
  apply (list_fails_on_falsy_id (@None string) (@None string) 10 0 Sample.tuesday
           [Sample.rex_stored; Shelter.zero_id] [Sample.rex_stored; Shelter.zero_id]
           [Sample.rex_stored; Shelter.zero_id] 2 [Sample.rex_stored] []
           Shelter.zero_id).
  - reflexivity.
  - by vm_compute.
  - repeat constructor.
  - reflexivity.
Defined.

(** ** Create *)

(** Create never alters or removes what is stored: whatever the payload and
    whether it succeeds or not, the collection before is a prefix of the
    collection after, which has at most one document more. *)
Theorem create_keeps_existing (pet : doc) (e : env) (docs : Mongo.collection) :
  docs `prefix_of` snd (add_pet pet e docs) ∧
  (length (snd (add_pet pet e docs)) ≤ Datatypes.S (length docs))%nat.
Proof.
  rewrite add_pet_state.
  destruct (insert_one_state
              (<["created_at" := VStr (utcnow e)]> (<["last_modified" := VStr (utcnow e)]> pet))
              e docs) as [->|(_id & _ & _ & ->)].
  - split; [done|lia].
  - split; [by apply prefix_app_r|]. rewrite length_app. cbn. lia.
Qed.

(** A pet that was created is counted: after a create with an identifier not
    in use, a listing counts one pet more under every filter that the stored
    document matches, and as many as before under every other filter. *)
Theorem create_then_list_counts {K St} `{!PyEnum K, !PyEnum St}
    (docs : Mongo.collection) (pet : doc) (kind : option K) (status : option St)
    (limit skip : Z) (e e' : env) :
  Forall (λ d, is_Some (Mongo.doc_oid d)) docs → pet !! "_id" = None →
  Forall (λ d, d !! "_id" ≠ Some (VOid (fresh_oid e))) docs →
  ∃ before after stored,
    get_all_pets kind status limit skip e' docs = (Ok before, docs) ∧
    snd (add_pet pet e docs) = docs ++ [stored] ∧
    get_all_pets kind status limit skip e' (docs ++ [stored])
      = (Ok after, docs ++ [stored]) ∧
    count after =
      count before + (if decide (Mongo.matches (filter_db kind status) stored) then 1 else 0).
Proof.
  intros Hids Hpet Hfresh. eexists _, _, _.
  split; [by apply get_all_pets_reference|].
  split; [by rewrite add_pet_fresh|].
  split.
  { apply get_all_pets_reference, Forall_app. split; [done|].
    apply Forall_singleton. eexists. apply doc_oid_Some, lookup_insert_eq. }
  cbn. rewrite filter_app, length_app, filter_cons, filter_nil.
  destruct (decide (Mongo.matches _ _)); cbn; lia.
Qed.

Lemma create_then_list_counts_witness :
  ∃ before after stored,
    get_all_pets (Some "cat") (@None string) 10 0 Sample.monday Sample.kennel
      = (Ok before, Sample.kennel) ∧
    snd (add_pet Shelter.tom Sample.tuesday Sample.kennel) = Sample.kennel ++ [stored] ∧
    get_all_pets (Some "cat") (@None string) 10 0 Sample.monday (Sample.kennel ++ [stored])
      = (Ok after, Sample.kennel ++ [stored]) ∧
    count after =
      count before +
      (if decide (Mongo.matches (filter_db (Some "cat") (@None string)) stored)
       then 1 else 0).
Proof.
  apply (create_then_list_counts Sample.kennel Shelter.tom (Some "cat") (@None string)
           10 0 Sample.tuesday Sample.monday).
  - apply (bool_decide_unpack _). by vm_compute.
  - reflexivity.
  - apply (bool_decide_unpack _). by vm_compute.
Defined.

(** On the reference store a create whose payload has no [_id] has two
    outcomes: the identifier the driver drew is taken, the store refuses and
    nothing is written; or the stamped document is appended and returned with
    its [id_].  It never returns [None] and never raises 400 or 404. *)
Theorem create_outcomes (pet : doc) (e : env) (docs : Mongo.collection) :
  pet !! "_id" = None →
  let stored :=
    <["_id" := VOid (fresh_oid e)]>
      (<["created_at" := VStr (utcnow e)]> (<["last_modified" := VStr (utcnow e)]> pet)) in
  (Exists (λ d, d !! "_id" = Some (VOid (fresh_oid e))) docs ∧
   add_pet pet e docs = (Raise DuplicateKeyError, docs)) ∨
  (Forall (λ d, d !! "_id" ≠ Some (VOid (fresh_oid e))) docs ∧
   add_pet pet e docs =
     (Ok (Some (<["id_" := VStr (Oid.to_str (fresh_oid e))]> stored)), docs ++ [stored])).
Proof.
  intros Hpet stored.
  destruct (decide (Exists (λ d, d !! "_id" = Some (VOid (fresh_oid e))) docs))
    as [Htaken|Hfresh].
  - left. split; [done|]. unfold add_pet. run. unfold Mongo.insert_one.
    rewrite !lookup_insert_ne, Hpet by done. cbn.
    destruct (list_find _ docs) eqn:Hfind; [done|].
    apply list_find_None in Hfind. apply Exists_exists in Htaken as (d & Hd & Hid).
    by eapply Forall_forall in Hfind.
  - apply not_Exists_Forall in Hfresh; [|intros d; apply _].
    right. split; [done|]. by apply add_pet_fresh.
Qed.

Lemma create_outcomes_witness :
  (Exists (λ d, d !! "_id" = Some (VOid Sample.oid1)) Sample.kennel ∧
   add_pet Shelter.tom Sample.monday Sample.kennel
     = (Raise DuplicateKeyError, Sample.kennel)) ∨
  (Forall (λ d, d !! "_id" ≠ Some (VOid Sample.oid1)) Sample.kennel ∧
   add_pet Shelter.tom Sample.monday Sample.kennel =
     (Ok (Some (<["id_" := VStr (Oid.to_str Sample.oid1)]>
                  (<["_id" := VOid Sample.oid1]>
                     (<["created_at" := VStr (utcnow Sample.monday)]>
                        (<["last_modified" := VStr (utcnow Sample.monday)]> Shelter.tom))))),
      Sample.kennel ++
        [<["_id" := VOid Sample.oid1]>
           (<["created_at" := VStr (utcnow Sample.monday)]>
              (<["last_modified" := VStr (utcnow Sample.monday)]> Shelter.tom))])).
Proof.
  apply (create_outcomes Shelter.tom Sample.monday Sample.kennel). reflexivity.
Defined.

(** ** Operations in sequence *)

(** An update that succeeds returns what a GET of the same identifier
    returns right after it, at any later instant. *)
Theorem update_then_get (id_ : string) (pet : doc) (e e' : env)
    (docs : Mongo.collection) (updated : doc) :
  fst (route_update_pet id_ pet e docs) = Ok updated →
  route_get_pet_by_id id_ e' (snd (route_update_pet id_ pet e docs)) =
    (Ok updated, snd (route_update_pet id_ pet e docs)).
Proof.
  unfold route_update_pet at 1 2 3. run.
  destruct (get_pet_or_404_cases id_ e docs)
    as [[Hid Hget]|[(o & Hid & Hfind & Hget)|(o & i & d & Hid & Hfind & Hget)]].
  - by rewrite validate_object_id_invalid.
  - rewrite (validate_object_id_str _ o) by done. by rewrite Hget.
  - rewrite (validate_object_id_str _ o) by done. rewrite Hget.
    unfold update_pet. run. rewrite (ObjectId_new_str _ o) by done.
    unfold Mongo.update_one.
    rewrite (list_find_ext _ (λ d, d !! "_id" = Some (VOid o))) by apply matches_id.
    rewrite Hfind.
    destruct (decide (_ = _)) as [Hsame|]; [|done].
    destruct (decide (_ = d)); [done|]. cbn.
    assert (list_find (λ d, d !! "_id" = Some (VOid o))
              (<[i := <["last_modified" := VStr (utcnow e)]> pet ∪ d]> docs)
            = Some (i, <["last_modified" := VStr (utcnow e)]> pet ∪ d)) as Hfind'.
    { eapply list_find_id_insert; [done|]. rewrite Hsame.
      by apply list_find_Some in Hfind as (_ & ? & _). }
    rewrite (get_pet_or_404_found _ _ o i (<["last_modified" := VStr (utcnow e)]> pet ∪ d));
      [|by apply validate_object_id_str|done].
    cbn. intros [= <-]. unfold route_get_pet_by_id. run.
    rewrite (validate_object_id_str _ o) by done.
    by apply (get_pet_by_id_found _ _ i).
Qed.

Lemma update_then_get_witness :
  route_get_pet_by_id "5e0be1000000000000000001" Sample.monday
      (snd (route_update_pet "5e0be1000000000000000001" Sample.rex_adopted
              Sample.tuesday Sample.kennel)) =
    (Ok (<["id_" := VStr "5e0be1000000000000000001"]>
           (<["last_modified" := VStr (utcnow Sample.tuesday)]>
              (<["status" := VStr "adopted"]> Sample.rex_stored))),
     snd (route_update_pet "5e0be1000000000000000001" Sample.rex_adopted
            Sample.tuesday Sample.kennel)).
Proof.
  apply (update_then_get "5e0be1000000000000000001" Sample.rex_adopted
           Sample.tuesday Sample.monday Sample.kennel). by vm_compute.
Defined.

Lemma delete_leaves_others_witness :
  fst (route_get_pet_by_id "5e0be1000000000000000002" Sample.tuesday
         (snd (route_delete_pet_by_id "5e0be1000000000000000001" Sample.tuesday
                 Shelter.two_pets))) =
  fst (route_get_pet_by_id "5e0be1000000000000000002" Sample.tuesday Shelter.two_pets).
Proof.
  apply (delete_leaves_others Shelter.two_pets "5e0be1000000000000000001"
           "5e0be1000000000000000002" Sample.oid1 Sample.oid2 Sample.tuesday
           Sample.tuesday).
  - apply (bool_decide_unpack _). by vm_compute.
  - reflexivity.
  - reflexivity.
  - discriminate.
Defined.

(** Identifiers stay unique: a well-formed collection is still well-formed
    after any sequence of create, update, delete and get requests whose
    create payloads carry no [_id]; every document keeps an ObjectId
    [_id], and no two documents share one. *)
Theorem ids_stay_unique (reqs : list (env * request)) (docs : Mongo.collection) :
  Forall (λ er, match er.2 with Create pet => pet !! "_id" = None | _ => True end) reqs →
  Mongo.wf docs → Mongo.wf (serve_all reqs docs).
Proof.
  revert docs. induction reqs as [|[e r] reqs IH]; intros docs Hreqs Hwf; [done|].
  apply Forall_cons in Hreqs as [Hr Hreqs]. cbn. apply IH; [done|].
  by apply serve_wf.
Qed.

Lemma ids_stay_unique_witness :
  Mongo.wf (serve_all [(Sample.monday, Create Sample.rex);
                       (Sample.monday, Create Shelter.tom);
                       (Sample.tuesday, Create Shelter.tom);
                       (Sample.tuesday, Delete "5e0be1000000000000000001")] []).
Proof.
  apply ids_stay_unique.
  - repeat constructor.
  - split; constructor.
Defined.
